(** * bibe2: the meal-log store ([database.py]) and the caller-side nutrient
      scaling ([app.py]), embedded in Rocq.

    [MealDatabase] is a thin layer of parameterised SQL over one SQLite
    file with two tables.  The embedding keeps that shape:

    - a table is the list of its rows in rowid order together with its
      AUTOINCREMENT counter, a database file is two optional tables;
    - every [cursor.execute] of the source is one relational step
      ([sql_where], [sql_order_by], [sql_sum], [sql_group_by], ...);
    - a method is a command [io A]: it takes the file, returns a value or
      raises, and hands back the file;
    - TEXT values are [string]s compared bytewise (SQLite's BINARY
      collation), REAL values live in a carrier given by [Numeric]; the
      Python arithmetic of [app.py] is run on binary64 floats. *)

From Stdlib Require Import ZArith List String Ascii Bool Lia NArith.
From Stdlib Require Import Sorting.Sorted Sorting.Permutation.
From Stdlib Require Import Floats.PrimFloat.
Import ListNotations.

Set Implicit Arguments.
Set Warnings "-inexact-float".
Local Open Scope Z_scope.

(* ================================================================== *)
(** ** TEXT comparison *)
(* ================================================================== *)

(** SQLite compares TEXT under the BINARY collation: byte by byte, a
    proper prefix sorting first.  That is [String.compare]. *)
Module Text.

Definition leb (s t : string) : bool := String.leb s t.
Definition ltb (s t : string) : bool := String.ltb s t.
Definition eqb (s t : string) : bool := String.eqb s t.

(** [x BETWEEN lo AND hi] is [x >= lo AND x <= hi]. *)
Definition between (lo hi x : string) : bool := leb lo x && leb x hi.

End Text.

(* ================================================================== *)
(** ** ORDER BY: a stable sort on a boolean order *)
(* ================================================================== *)

Section OrderBy.
Variable A : Type.
Variable le : A -> A -> bool.

(** Place [x] in front of the first row that is not below it. *)
Fixpoint insert_by (x : A) (l : list A) : list A :=
  match l with
  | [] => [x]
  | y :: l' => if le x y then x :: y :: l' else y :: insert_by x l'
  end.

(** Rows with equal keys keep their scan order. *)
Fixpoint sql_order_by (l : list A) : list A :=
  match l with
  | [] => []
  | x :: l' => insert_by x (sql_order_by l')
  end.

End OrderBy.

(* ================================================================== *)
(** ** REAL values *)
(* ================================================================== *)

(** The REAL columns hold what the callers bind: the finite numbers the
    number inputs of the UI deliver.  The store only ever adds them up
    (inside SUM) and tests a total for falsiness ([row[0] or 0]), so that
    is all the carrier has to provide. *)
Class Numeric (real : Type) : Type := {
  real_zero : real;                    (* the literal 0 *)
  real_add : real -> real -> real;     (* one accumulation step of SUM *)
  real_is_zero : real -> bool          (* [x == 0], Python's falsy number *)
}.

(** binary64, the REAL of SQLite and the float of Python. *)
#[export] Instance Numeric_float : Numeric float := {
  real_zero := 0%float;
  real_add := PrimFloat.add;
  real_is_zero := fun x => PrimFloat.eqb x 0%float
}.

(* ================================================================== *)
(** ** Rows, tables, the database file *)
(* ================================================================== *)

(** A row of [food_master]; also the dict [get_all_foods] builds from it,
    key for column. *)
Module Food.
Record t (real : Type) : Type := mk {
  id : Z;
  name : string;
  calories : real;
  protein : real;
  fat : real;
  carbs : real;
  fiber : real
}.
Arguments mk {real}.
Arguments id {real}. Arguments name {real}. Arguments calories {real}.
Arguments protein {real}. Arguments fat {real}. Arguments carbs {real}.
Arguments fiber {real}.
End Food.

(** A row of [meal_records], as the SELECTs of the module list its
    columns. *)
Module Meal.
Record t (real : Type) : Type := mk {
  id : Z;
  date : string;
  meal_type : string;
  food_name : string;
  amount : real;
  calories : real;
  protein : real;
  fat : real;
  carbs : real;
  fiber : real;
  created_at : string
}.
Arguments mk {real}.
Arguments id {real}. Arguments date {real}. Arguments meal_type {real}.
Arguments food_name {real}. Arguments amount {real}.
Arguments calories {real}. Arguments protein {real}. Arguments fat {real}.
Arguments carbs {real}. Arguments fiber {real}. Arguments created_at {real}.
End Meal.

(** A row of the frame [get_period_summary] returns.  An aggregate column
    is nullable in SQL, hence the [option]. *)
Module Period.
Record t (real : Type) : Type := mk {
  date : string;
  total_calories : option real;
  total_protein : option real;
  total_fat : option real;
  total_carbs : option real;
  total_fiber : option real
}.
Arguments mk {real}.
Arguments date {real}. Arguments total_calories {real}.
Arguments total_protein {real}. Arguments total_fat {real}.
Arguments total_carbs {real}. Arguments total_fiber {real}.
End Period.

(** [INTEGER PRIMARY KEY AUTOINCREMENT]: the rows in rowid order and the
    largest rowid the table has ever handed out ([sqlite_sequence]). *)
Record table (row : Type) : Type := mk_table {
  rows : list row;
  seq : Z
}.

Definition empty_table (row : Type) : table row := mk_table [] 0.

(** The SQLite file: a table is there or it is not. *)
Record database (real : Type) : Type := mk_database {
  food_master : option (table (Food.t real));
  meal_records : option (table (Meal.t real))
}.
Arguments mk_database {real}.
Arguments food_master {real}.
Arguments meal_records {real}.

(** The rows of a table of the file, none when the table is absent. *)
Definition food_rows {real} (db : database real) : list (Food.t real) :=
  match food_master db with Some t => rows t | None => [] end.

Definition meal_rows {real} (db : database real) : list (Meal.t real) :=
  match meal_records db with Some t => rows t | None => [] end.

(** What holds of the file once a [MealDatabase] has been constructed:
    [__init__] has run [init_db]. *)
Definition initialized {real} (db : database real) : bool :=
  match food_master db, meal_records db with
  | Some _, Some _ => true
  | _, _ => false
  end.

(* ================================================================== *)
(** ** Commands *)
(* ================================================================== *)

Inductive exn : Type :=
| OperationalError (msg : string)    (* sqlite3.OperationalError *)
| OverflowError (msg : string)       (* a bound int beyond 64 bits *)
| DatabaseError (cause : exn).       (* pandas.errors.DatabaseError, raised
                                        from the exception of the engine *)

Inductive outcome (A : Type) : Type :=
| Return (a : A)
| Raise (e : exn).
Arguments Return {A}.
Arguments Raise {A}.

(** A method call: runs against the file, returns or raises, leaves a
    file behind.  Nothing is committed when a statement raises. *)
Definition io (S A : Type) : Type := S -> outcome A * S.

Definition ret {S A : Type} (a : A) : io S A := fun s => (Return a, s).

Definition raise {S A : Type} (e : exn) : io S A := fun s => (Raise e, s).

Definition bind {S A B : Type} (c : io S A) (k : A -> io S B) : io S B :=
  fun s =>
    match c s with
    | (Return a, s') => k a s'
    | (Raise e, s') => (Raise e, s')
    end.

Declare Scope io_scope.
Delimit Scope io_scope with io.
Notation "x <- c ;; k" := (bind c (fun x => k))
  (at level 61, c at next level, right associativity) : io_scope.
Notation "c ;; k" := (bind c (fun _ => k))
  (at level 61, right associativity) : io_scope.

(** [try: c  except Exception as e: handler(e)] *)
Definition try_except {S A : Type} (c : io S A) (handler : exn -> io S A)
  : io S A :=
  fun s =>
    match c s with
    | (Return a, s') => (Return a, s')
    | (Raise e, s') => handler e s'
    end.

(** What the engine can bind to a [?] as an INTEGER: a signed 64-bit
    value. *)
Definition in_int64 (z : Z) : bool :=
  (- 2 ^ 63 <=? z) && (z <=? 2 ^ 63 - 1).

(** Binding a Python int: one that does not fit raises, before the
    statement runs. *)
Definition bind_integer {S : Type} (z : Z) : io S unit :=
  if in_int64 z then ret tt
  else raise (OverflowError
                "Python int too large to convert to SQLite INTEGER").

(** [pd.read_sql_query(query, conn, params=...)]: the frame of the rows
    the query returns; an exception of the engine is raised again as
    pandas' [DatabaseError]. *)
Definition read_sql_query {S A : Type} (query : io S A) : io S A :=
  try_except query (fun e => raise (DatabaseError e)).

(* ================================================================== *)
(** ** The relational steps the statements are made of *)
(* ================================================================== *)

Section Relational.
Context {real : Type} `{Numeric real}.
Variable row : Type.

(** [WHERE p] *)
Definition sql_where (p : row -> bool) (rs : list row) : list row :=
  filter p rs.

(** [SUM(col)]: NULL over no rows, else the values added up in scan
    order. *)
Definition sql_sum (col : row -> real) (rs : list row) : option real :=
  match rs with
  | [] => None
  | _ :: _ => Some (fold_left real_add (map col rs) real_zero)
  end.

(** [GROUP BY key] over rows already sorted on [key]: every run of
    equal keys is one group. *)
Fixpoint sql_group_by (key : row -> string) (rs : list row) : list (list row) :=
  match rs with
  | [] => []
  | r :: rs' =>
      match sql_group_by key rs' with
      | (r' :: g) :: gs =>
          if Text.eqb (key r) (key r') then (r :: r' :: g) :: gs
          else [r] :: (r' :: g) :: gs
      | _ => [[r]]
      end
  end.

Variable rowid : row -> Z.

Definition max_rowid (rs : list row) : Z :=
  fold_right (fun r m => Z.max (rowid r) m) 0 rs.

(** AUTOINCREMENT: one more than the largest rowid ever used. *)
Definition next_rowid (t : table row) : Z :=
  Z.max (seq t) (max_rowid (rows t)) + 1.

(** [INSERT INTO ... VALUES ...] with the key left to the table. *)
Definition sql_insert (values : Z -> row) (t : table row) : table row :=
  let i := next_rowid t in
  mk_table (rows t ++ [values i]) i.

(** [UPDATE ... SET ... WHERE p] *)
Definition sql_update (p : row -> bool) (set : row -> row) (t : table row)
  : table row :=
  mk_table (map (fun r => if p r then set r else r) (rows t)) (seq t).

(** [DELETE FROM ... WHERE p] *)
Definition sql_delete (p : row -> bool) (t : table row) : table row :=
  mk_table (filter (fun r => negb (p r)) (rows t)) (seq t).

End Relational.

(* ================================================================== *)
(** ** [class MealDatabase] *)
(* ================================================================== *)

Section MealDatabase.
Context {real : Type} `{Numeric real}.

Local Abbreviation db := (database real).
Local Open Scope io_scope.
Local Open Scope string_scope.

(** *** Access to the two tables *)

(** A statement naming a table that is not in the file raises. *)
Definition from_food_master : io db (table (Food.t real)) :=
  fun d =>
    match food_master d with
    | Some t => (Return t, d)
    | None => (Raise (OperationalError "no such table: food_master"), d)
    end.

Definition from_meal_records : io db (table (Meal.t real)) :=
  fun d =>
    match meal_records d with
    | Some t => (Return t, d)
    | None => (Raise (OperationalError "no such table: meal_records"), d)
    end.

(** [conn.commit()]: the statement's table replaces the one on file. *)
Definition commit_food_master (t : table (Food.t real)) : io db unit :=
  fun d => (Return tt, mk_database (Some t) (meal_records d)).

Definition commit_meal_records (t : table (Meal.t real)) : io db unit :=
  fun d => (Return tt, mk_database (food_master d) (Some t)).

(** [CREATE TABLE IF NOT EXISTS food_master (...)] *)
Definition create_food_master_if_not_exists : io db unit :=
  fun d =>
    match food_master d with
    | Some _ => (Return tt, d)
    | None => commit_food_master (empty_table _) d
    end.

(** [CREATE TABLE IF NOT EXISTS meal_records (...)] *)
Definition create_meal_records_if_not_exists : io db unit :=
  fun d =>
    match meal_records d with
    | Some _ => (Return tt, d)
    | None => commit_meal_records (empty_table _) d
    end.

(** *** The methods, in the order of the source *)

Definition init_db : io db unit :=
  create_food_master_if_not_exists ;;
  create_meal_records_if_not_exists.

(** The Python defaults [protein=0, ...] are filled in by the caller
    of the model: every call site of [app.py] passes all six values. *)
Definition add_food_to_master
    (name : string) (calories protein fat carbs fiber : real) : io db unit :=
  t <- from_food_master ;;
  commit_food_master
    (sql_insert Food.id
       (fun i => Food.mk i name calories protein fat carbs fiber) t).

(** [SELECT * FROM food_master ORDER BY name], each tuple turned into
    a dict. *)
Definition get_all_foods : io db (list (Food.t real)) :=
  t <- from_food_master ;;
  let rows := sql_order_by (fun a b => Text.leb (Food.name a) (Food.name b))
                (rows t) in
  ret (map (fun row =>
              Food.mk (Food.id row) (Food.name row) (Food.calories row)
                (Food.protein row) (Food.fat row) (Food.carbs row)
                (Food.fiber row))
         rows).

(** [created_at] is not among the inserted columns: the engine fills
    it with CURRENT_TIMESTAMP, here the argument [now]. *)
Definition add_meal_record (now : string)
    (date meal_type food_name : string)
    (amount calories protein fat carbs fiber : real) : io db unit :=
  t <- from_meal_records ;;
  commit_meal_records
    (sql_insert Meal.id
       (fun i => Meal.mk i date meal_type food_name amount calories
                   protein fat carbs fiber now) t).

(** [WHERE date = ? ORDER BY created_at] *)
Definition get_meals_by_date (date : string) : io db (list (Meal.t real)) :=
  read_sql_query
    (t <- from_meal_records ;;
     ret (sql_order_by
            (fun a b => Text.leb (Meal.created_at a) (Meal.created_at b))
            (sql_where (fun r => Text.eqb (Meal.date r) date) (rows t)))).

(** Two-column sort key of [ORDER BY date, created_at]. *)
Definition date_created_leb (a b : Meal.t real) : bool :=
  Text.ltb (Meal.date a) (Meal.date b)
  || (Text.eqb (Meal.date a) (Meal.date b)
      && Text.leb (Meal.created_at a) (Meal.created_at b)).

(** [WHERE date BETWEEN ? AND ? ORDER BY date, created_at] *)
Definition get_meals_by_date_range (start_date end_date : string)
  : io db (list (Meal.t real)) :=
  read_sql_query
    (t <- from_meal_records ;;
     ret (sql_order_by date_created_leb
            (sql_where
               (fun r => Text.between start_date end_date (Meal.date r))
               (rows t)))).

(** [DELETE FROM meal_records WHERE id = ?]: the statement is prepared
    (the table must be there), the id is bound, the rows go. *)
Definition delete_meal_record (record_id : Z) : io db unit :=
  t <- from_meal_records ;;
  bind_integer record_id ;;
  commit_meal_records
    (sql_delete (fun r => Meal.id r =? record_id)%Z t).

(** [UPDATE meal_records SET date = ?, ..., fiber = ? WHERE id = ?] *)
Definition update_meal_record (record_id : Z)
    (date meal_type food_name : string)
    (amount calories protein fat carbs fiber : real) : io db unit :=
  t <- from_meal_records ;;
  bind_integer record_id ;;
  commit_meal_records
    (sql_update (fun r => Meal.id r =? record_id)%Z
       (fun r => Meal.mk (Meal.id r) date meal_type food_name amount
                   calories protein fat carbs fiber (Meal.created_at r))
       t).

(** [x or 0] on a fetched aggregate: [None] and a zero total are both
    falsy. *)
Definition or_0 (x : option real) : real :=
  match x with
  | Some v => if real_is_zero v then real_zero else v
  | None => real_zero
  end.

(** The one row of the five SUMs, then the dict built from it. *)
Definition get_daily_summary (date : string) : io db (list (string * real)) :=
  t <- from_meal_records ;;
  let matching := sql_where (fun r => Text.eqb (Meal.date r) date) (rows t) in
  let row := (sql_sum Meal.calories matching,
              sql_sum Meal.protein matching,
              sql_sum Meal.fat matching,
              sql_sum Meal.carbs matching,
              sql_sum Meal.fiber matching) in
  let '(row0, row1, row2, row3, row4) := row in
  ret [("calories", or_0 row0);
       ("protein", or_0 row1);
       ("fat", or_0 row2);
       ("carbs", or_0 row3);
       ("fiber", or_0 row4)].

(** One output row of [SELECT date, SUM(...), ... GROUP BY date]. *)
Definition period_row (d : string) (g : list (Meal.t real)) : Period.t real :=
  Period.mk d
    (sql_sum Meal.calories g) (sql_sum Meal.protein g)
    (sql_sum Meal.fat g) (sql_sum Meal.carbs g) (sql_sum Meal.fiber g).

(** [WHERE date BETWEEN ? AND ? GROUP BY date ORDER BY date]: the
    selected rows are sorted on the date, cut into runs, and every run
    gives one row, so the rows come out in date order. *)
Definition get_period_summary (start_date end_date : string)
  : io db (list (Period.t real)) :=
  read_sql_query
    (t <- from_meal_records ;;
     let selected :=
       sql_where (fun r => Text.between start_date end_date (Meal.date r))
         (rows t) in
     let sorted :=
       sql_order_by (fun a b => Text.leb (Meal.date a) (Meal.date b))
         selected in
     ret (flat_map
            (fun g => match g with
                      | [] => []
                      | r :: _ => [period_row (Meal.date r) g]
                      end)
            (sql_group_by Meal.date sorted))).

End MealDatabase.

(* ================================================================== *)
(** ** [app.py]: recording a meal *)
(* ================================================================== *)

(** The page runs on Python floats: what [get_all_foods] hands over are
    the REAL columns as binary64, [amount] comes from a float number
    input. *)
Module App.
Local Open Scope float_scope.

(** The five [calc_*] locals. *)
Record calc : Type := mk_calc {
  calc_calories : float;
  calc_protein : float;
  calc_fat : float;
  calc_carbs : float;
  calc_fiber : float
}.

(** Lines 189-194: values per 100 g scaled to the amount eaten. *)
Definition calc_nutrients (food_data : Food.t float) (amount : float) : calc :=
  let ratio := amount / 100.0 in
  mk_calc (Food.calories food_data * ratio)
          (Food.protein food_data * ratio)
          (Food.fat food_data * ratio)
          (Food.carbs food_data * ratio)
          (Food.fiber food_data * ratio).

(** [next((f for f in foods if f["name"] == selected_food), None)] *)
Definition food_named (selected_food : string) (foods : list (Food.t float))
  : option (Food.t float) :=
  find (fun f => Text.eqb (Food.name f) selected_food) foods.

(** The add button of the record page, under the guards of the page:
    [if foods:], [if selected_food:] (the empty choice of the select box
    is falsy), [if food_data:].  Look the food up, scale, store; nothing
    is stored when a guard fails. *)
Definition record_meal (now date meal_type selected_food : string)
    (amount : float) : io (database float) unit :=
  (foods <- get_all_foods ;;
   match foods with
   | [] => ret tt
   | _ :: _ =>
       if Text.eqb selected_food "" then ret tt
       else
         match food_named selected_food foods with
         | Some food_data =>
             let c := calc_nutrients food_data amount in
             add_meal_record now date meal_type selected_food amount
               (calc_calories c) (calc_protein c) (calc_fat c) (calc_carbs c)
               (calc_fiber c)
         | None => ret tt
         end
   end)%io.

(** The food of the scenario, as [food_master] returns it. *)
Definition rice (id : Z) : Food.t float :=
  Food.mk id "Rice" 168 2.5 0.3 37.1 0.3.

End App.

(* ================================================================== *)
(** ** [app.py]: the delete button and the food form *)
(* ================================================================== *)

(** What a handler puts on the page: [st.success], [st.error] with the
    exception it caught, or nothing. *)
Inductive shown : Type :=
| success
| error (e : option exn)
| nothing.

(** Whether a call ended in an exception. *)
Definition raises {A : Type} (o : outcome A) : bool :=
  match o with
  | Return _ => false
  | Raise _ => true
  end.

Section Pages.
Context {real : Type} `{Numeric real}.


(** The form of the food page: [if submitted and new_food_name:] add and
    report success, [elif submitted:] report the missing name. *)
Definition add_food_form (submitted : bool) (new_food_name : string)
    (new_calories new_protein new_fat new_carbs new_fiber : real)
  : io (database real) shown :=
  if submitted && negb (Text.eqb new_food_name "") then
    (add_food_to_master new_food_name new_calories new_protein new_fat
       new_carbs new_fiber ;;
     ret success)%io
  else if submitted then ret (error None)
  else ret nothing.

End Pages.

(* ================================================================== *)
(** ** [app.py]: the dates the pages send to the store *)
(* ================================================================== *)

(** The pages work on [datetime] values and hand the store their
    [strftime("%Y-%m-%d")].  A [datetime.date] is modelled by its three
    fields, [- timedelta(days=n)] by stepping back day by day, and the
    exceptions of the constructors by a sum. *)
Module Calendar.

Record date : Type := mk {
  year : Z;
  month : Z;
  day : Z
}.

Inductive date_error : Type :=
| ValueError       (* a field out of range *)
| OverflowError.   (* date value out of range *)

Definition is_leap (y : Z) : bool :=
  (y mod 4 =? 0) && (negb (y mod 100 =? 0) || (y mod 400 =? 0)).

Definition days_in_month (y m : Z) : Z :=
  if m =? 2 then (if is_leap y then 29 else 28)
  else if (m =? 4) || (m =? 6) || (m =? 9) || (m =? 11) then 30
  else 31.

(** What the constructor of [date] accepts: MINYEAR = 1, MAXYEAR = 9999. *)
Definition valid (d : date) : bool :=
  (1 <=? year d) && (year d <=? 9999) &&
  (1 <=? month d) && (month d <=? 12) &&
  (1 <=? day d) && (day d <=? days_in_month (year d) (month d)).

(** [d.replace(year=..., month=..., day=...)]: a new date from the fields
    given and the fields kept, checked like any new date. *)
Definition replace (d : date) (new_year new_month new_day : option Z)
  : date_error + date :=
  let d' := mk (match new_year with Some y => y | None => year d end)
               (match new_month with Some m => m | None => month d end)
               (match new_day with Some x => x | None => day d end) in
  if valid d' then inr d' else inl ValueError.

(** [d - timedelta(days=1)] *)
Definition yesterday (d : date) : date_error + date :=
  if 1 <? day d then inr (mk (year d) (month d) (day d - 1))
  else if 1 <? month d then
    inr (mk (year d) (month d - 1) (days_in_month (year d) (month d - 1)))
  else if 1 <? year d then inr (mk (year d - 1) 12 31)
  else inl OverflowError.

(** [d - timedelta(days=n)] *)
Fixpoint minus_days (n : nat) (d : date) : date_error + date :=
  match n with
  | O => inr d
  | S n' =>
      match yesterday d with
      | inr d' => minus_days n' d'
      | inl e => inl e
      end
  end.

(** One decimal digit as a character. *)
Definition digit (n : Z) : ascii := ascii_of_N (48 + Z.to_N (n mod 10)).

(** [%Y]: the year in decimal, which from 1000 on is four digits; an
    earlier year is printed without leading zeros (as glibc does). *)
Definition year_digits (y : Z) (rest : string) : string :=
  if y <? 10 then String (digit y) rest
  else if y <? 100 then String (digit (y / 10)) (String (digit y) rest)
  else if y <? 1000 then
    String (digit (y / 100)) (String (digit (y / 10)) (String (digit y) rest))
  else
    String (digit (y / 1000))
      (String (digit (y / 100))
         (String (digit (y / 10)) (String (digit y) rest))).

(** [strftime("%Y-%m-%d")]: month and day on two digits. *)
Definition strftime_ymd (d : date) : string :=
  year_digits (year d)
    (String "-"
       (String (digit (month d / 10))
          (String (digit (month d))
             (String "-"
                (String (digit (day d / 10))
                   (String (digit (day d)) EmptyString)))))).

(** The dates whose fields fill the columns of the format: a year of
    four digits, month and day of two at most. *)
Definition in_format (d : date) : Prop :=
  1000 <= year d <= 9999 /\ 0 <= month d <= 99 /\ 0 <= day d <= 99.

(** The weekly views: [end_date = datetime.now()],
    [start_date = end_date - timedelta(days=6)], both formatted. *)
Definition week_window (now : date) : date_error + (string * string) :=
  match minus_days 6 now with
  | inr start_date => inr (strftime_ymd start_date, strftime_ymd now)
  | inl e => inl e
  end.

(** The monthly view: the first of the month, and the day before the
    first of the next month, December rolling over to January. *)
Definition month_window (year_month : date) : date_error + (string * string) :=
  match replace year_month None None (Some 1) with
  | inl e => inl e
  | inr start_date =>
      let first_of_next :=
        if month start_date =? 12 then
          replace start_date (Some (year start_date + 1)) (Some 1) (Some 1)
        else
          replace start_date None (Some (month start_date + 1)) (Some 1) in
      match first_of_next with
      | inl e => inl e
      | inr next =>
          match yesterday next with
          | inl e => inl e
          | inr end_date =>
              inr (strftime_ymd start_date, strftime_ymd end_date)
          end
      end
  end.

(** Earlier than, or the same day as. *)
Definition le (a b : date) : Prop :=
  year a < year b \/
  (year a = year b /\
   (month a < month b \/ (month a = month b /\ day a <= day b))).

End Calendar.

(* ================================================================== *)
(** ** A session *)
(* ================================================================== *)

(** A file built by the methods themselves, on binary64: two foods, and
    meals on 2024-01-01, 2024-01-05 (two of them) and 2024-01-10. *)
Module Session.
Local Open Scope float_scope.
Local Open Scope string_scope.

Definition no_file : database float := mk_database None None.

Definition foods_only : database float :=
  let d := snd (init_db no_file) in
  let d := snd (add_food_to_master "Rice" 168 2.5 0.3 37.1 0.3 d) in
  snd (add_food_to_master "Egg" 151 12.3 10.3 0.3 0 d).

Definition logged : database float :=
  let d := foods_only in
  let d := snd (add_meal_record "2024-01-05 12:10:00"
                  "2024-01-05" "lunch" "Rice" 200 336 5 0.6 74.2 0.6 d) in
  let d := snd (add_meal_record "2024-01-05 19:30:00"
                  "2024-01-01" "dinner" "Egg" 100 151 12.3 10.3 0.3 0 d) in
  let d := snd (add_meal_record "2024-01-10 07:45:00"
                  "2024-01-10" "breakfast" "Egg" 50 75.5 6.15 5.15 0.15 0 d) in
  snd (add_meal_record "2024-01-10 07:50:00"
         "2024-01-05" "breakfast" "Egg" 100 151 12.3 10.3 0.3 0 d).

(** Record 2 of [logged], the egg of the 1st. *)
Definition egg_of_the_1st : Meal.t float :=
  Meal.mk 2 "2024-01-01" "dinner" "Egg" 100 151 12.3 10.3 0.3 0
    "2024-01-05 19:30:00".

End Session.

(* ================================================================== *)
(** ** What the specification says, in its own words *)
(* ================================================================== *)

Section Specification.
Context {real : Type} `{Numeric real}.

(** "the sum of that nutrient field over all MealRecords whose date
    equals D" *)
Definition nutrient_sum (field : Meal.t real -> real) (D : string)
    (records : list (Meal.t real)) : real :=
  fold_left real_add
    (map field (filter (fun r => Text.eqb (Meal.date r) D) records))
    real_zero.

(** A total as a Python caller sees it: a total that is zero reads as
    the number 0, any other as itself. *)
Definition as_number (total : real) : real :=
  if real_is_zero total then real_zero else total.


(** Dates strictly ascending along the rows of a period summary. *)
Definition date_ascending (a b : Period.t real) : Prop :=
  Text.ltb (Period.date a) (Period.date b) = true.

(** "ordered by (date, created_at) ascending" *)
Definition date_created_le (a b : Meal.t real) : Prop :=
  Text.ltb (Meal.date a) (Meal.date b) = true \/
  (Meal.date a = Meal.date b /\
   Text.leb (Meal.created_at a) (Meal.created_at b) = true).

(** "sorted by name ascending" *)
Definition name_le (a b : Food.t real) : Prop :=
  Text.leb (Food.name a) (Food.name b) = true.

End Specification.

(* ================================================================== *)
(** ** Groups, keys and the files a session can reach *)
(* ================================================================== *)

Section Shapes.
Variable row : Type.

(** A group and the key all of its rows carry. *)
Definition run_of (key : row -> string) (gk : list row * string) : Prop :=
  fst gk <> [] /\ forall r, In r (fst gk) -> key r = snd gk.

(** The rows lie in ascending rowid order below the counter of the
    table: ids are unique and none is ever handed out twice. *)
Definition keyed (rowid : row -> Z) (t : table row) : Prop :=
  StronglySorted Z.lt (map rowid (rows t)) /\
  Forall (fun r => rowid r <= seq t) (rows t).

End Shapes.

Section Reachability.
Context {real : Type} `{Numeric real}.

Local Abbreviation db := (database real).

(** Both tables of the file, where present, are keyed. *)
Definition consistent (d : db) : Prop :=
  (forall t, food_master d = Some t -> keyed Food.id t) /\
  (forall t, meal_records d = Some t -> keyed Meal.id t).

(** The files a [MealDatabase] can get to, from no tables at all. *)
Inductive reachable : db -> Prop :=
| reach_new : reachable (mk_database None None)
| reach_init_db d : reachable d -> reachable (snd (init_db d))
| reach_add_food d name calories protein fat carbs fiber :
    reachable d ->
    reachable (snd (add_food_to_master name calories protein fat carbs fiber d))
| reach_add_meal d now date meal_type food_name amount calories protein fat
    carbs fiber :
    reachable d ->
    reachable (snd (add_meal_record now date meal_type food_name amount
                      calories protein fat carbs fiber d))
| reach_delete d record_id :
    reachable d -> reachable (snd (delete_meal_record record_id d))
| reach_update d record_id date meal_type food_name amount calories protein
    fat carbs fiber :
    reachable d ->
    reachable (snd (update_meal_record record_id date meal_type food_name
                      amount calories protein fat carbs fiber d)).

End Reachability.

(** The values the specification expects for 150 g of rice. *)
Definition expected_rice_150 : App.calc :=
  (App.mk_calc 252.0 3.75 0.45 55.65 0.45)%float.

(* ================================================================== *)
(** ** Facts on the TEXT order *)
(* ================================================================== *)

Module TextFacts.
Import Text.

Lemma ascii_compare_refl (a : ascii) : Ascii.compare a a = Eq.
Proof. unfold Ascii.compare. apply N.compare_refl. Qed.

Lemma compare_refl (s : string) : String.compare s s = Eq.
Proof.
  induction s as [|a s IH]; simpl; [reflexivity|].
  now rewrite ascii_compare_refl.
Qed.

Lemma ascii_compare_eq (a b : ascii) : Ascii.compare a b = Eq -> a = b.
Proof. apply Ascii.compare_eq_iff. Qed.

Lemma ascii_compare_lt_trans (a b c : ascii) :
  Ascii.compare a b = Lt -> Ascii.compare b c = Lt -> Ascii.compare a c = Lt.
Proof.
  unfold Ascii.compare. rewrite !N.compare_lt_iff. apply N.lt_trans.
Qed.

Lemma compare_lt_trans (s t u : string) :
  String.compare s t = Lt -> String.compare t u = Lt -> String.compare s u = Lt.
Proof.
  revert t u. induction s as [|a s IH]; intros [|b t] [|c u]; simpl;
    try congruence.
  destruct (Ascii.compare a b) eqn:Hab; try discriminate;
    destruct (Ascii.compare b c) eqn:Hbc; try discriminate; intros H1 H2.
  - apply ascii_compare_eq in Hab, Hbc. subst.
    rewrite ascii_compare_refl. eauto.
  - apply ascii_compare_eq in Hab. subst. now rewrite Hbc.
  - apply ascii_compare_eq in Hbc. subst. now rewrite Hab.
  - now rewrite (ascii_compare_lt_trans _ _ _ Hab Hbc).
Qed.

Lemma compare_eq (s t : string) : String.compare s t = Eq -> s = t.
Proof. apply String.compare_eq_iff. Qed.

Lemma leb_refl (s : string) : leb s s = true.
Proof. unfold leb, String.leb. now rewrite compare_refl. Qed.

Lemma leb_total (s t : string) : leb s t = true \/ leb t s = true.
Proof. apply String.leb_total. Qed.

Lemma leb_antisym (s t : string) : leb s t = true -> leb t s = true -> s = t.
Proof. apply String.leb_antisym. Qed.

Lemma ltb_compare (s t : string) : ltb s t = true <-> String.compare s t = Lt.
Proof.
  unfold ltb, String.ltb. destruct (String.compare s t); split; congruence.
Qed.

Lemma leb_compare (s t : string) : leb s t = true <-> String.compare s t <> Gt.
Proof.
  unfold leb, String.leb. destruct (String.compare s t); split; congruence.
Qed.

Lemma ltb_negb_leb (s t : string) : ltb s t = negb (leb t s).
Proof.
  unfold ltb, leb, String.ltb, String.leb.
  rewrite (String.compare_antisym t s).
  destruct (String.compare s t); reflexivity.
Qed.

Lemma leb_ltb_or_eq (s t : string) : leb s t = true <-> ltb s t = true \/ s = t.
Proof.
  unfold leb, ltb, String.leb, String.ltb. split.
  - destruct (String.compare s t) eqn:E; intros H; try discriminate.
    + right. now apply compare_eq.
    + now left.
  - intros [H| ->]; [|now rewrite compare_refl].
    destruct (String.compare s t); congruence.
Qed.

Lemma ltb_trans (s t u : string) : ltb s t = true -> ltb t u = true -> ltb s u = true.
Proof. rewrite !ltb_compare. apply compare_lt_trans. Qed.

Lemma leb_trans (s t u : string) : leb s t = true -> leb t u = true -> leb s u = true.
Proof.
  rewrite !leb_ltb_or_eq. intros [H1| ->] [H2| ->]; auto.
  left. eapply ltb_trans; eauto.
Qed.

Lemma ltb_irrefl (s : string) : ltb s s = false.
Proof. unfold ltb, String.ltb. now rewrite compare_refl. Qed.

Lemma ltb_leb (s t : string) : ltb s t = true -> leb s t = true.
Proof. intros H. apply leb_ltb_or_eq. now left. Qed.

Lemma eqb_eq (s t : string) : eqb s t = true <-> s = t.
Proof. apply String.eqb_eq. Qed.

Lemma between_spec (lo hi x : string) :
  between lo hi x = true <-> leb lo x = true /\ leb x hi = true.
Proof. unfold between. apply andb_true_iff. Qed.

End TextFacts.

(* ================================================================== *)
(** ** Facts on ORDER BY *)
(* ================================================================== *)

Section OrderByFacts.
Variable A : Type.
Variable le : A -> A -> bool.

Lemma insert_by_perm (x : A) (l : list A) : Permutation (x :: l) (insert_by le x l).
Proof.
  induction l as [|y l IH]; simpl; [reflexivity|].
  destruct (le x y); [reflexivity|].
  rewrite perm_swap. now constructor.
Qed.

Lemma sql_order_by_perm (l : list A) : Permutation l (sql_order_by le l).
Proof.
  induction l as [|x l IH]; simpl; [constructor|].
  rewrite <- insert_by_perm. now constructor.
Qed.

Lemma sql_order_by_In (l : list A) (x : A) : In x (sql_order_by le l) <-> In x l.
Proof.
  split; apply Permutation_in;
    [symmetry|]; apply sql_order_by_perm.
Qed.

Hypothesis le_total : forall x y, le x y = true \/ le y x = true.

Lemma insert_by_sorted (x : A) (l : list A) :
  Sorted (fun a b => le a b = true) l ->
  Sorted (fun a b => le a b = true) (insert_by le x l).
Proof.
  induction l as [|y l IH]; simpl; intros Hs.
  - repeat constructor.
  - destruct (le x y) eqn:E.
    + constructor; [assumption|]. now constructor.
    + inversion Hs as [|? ? Hs' Hhd]; subst.
      constructor; [now apply IH|].
      destruct l as [|z l]; simpl.
      * constructor. destruct (le_total x y); congruence.
      * destruct (le x z).
        -- constructor. destruct (le_total x y); congruence.
        -- constructor. now inversion Hhd.
Qed.

Lemma sql_order_by_sorted (l : list A) :
  Sorted (fun a b => le a b = true) (sql_order_by le l).
Proof.
  induction l as [|x l IH]; simpl; [constructor|].
  now apply insert_by_sorted.
Qed.

(** Stability, as the aggregates need it: selecting a class of rows
    whose keys are mutually below each other commutes with sorting. *)
Lemma insert_by_filter (p : A -> bool) (x : A) (l : list A) :
  (forall y, p x = true -> p y = true -> le x y = true) ->
  filter p (insert_by le x l) = filter p (x :: l).
Proof.
  intros Hp. induction l as [|y l IH]; simpl; [reflexivity|].
  destruct (le x y) eqn:E; simpl; [reflexivity|].
  simpl in IH. rewrite IH.
  destruct (p y) eqn:Py; [|reflexivity].
  destruct (p x) eqn:Px; [|reflexivity].
  rewrite (Hp y eq_refl Py) in E. discriminate.
Qed.

Lemma sql_order_by_filter (p : A -> bool) (l : list A) :
  (forall x y, p x = true -> p y = true -> le x y = true) ->
  filter p (sql_order_by le l) = filter p l.
Proof.
  intros Hp. induction l as [|x l IH]; simpl; [reflexivity|].
  rewrite insert_by_filter by (intros; now apply Hp).
  simpl. now rewrite IH.
Qed.

End OrderByFacts.

(* ================================================================== *)
(** ** Properties of the store *)
(* ================================================================== *)

Section Properties.
Context {real : Type} `{Numeric real}.

Local Abbreviation db := (database real).

(** *** Running a method on a file that has its tables *)

Lemma initialized_tables (d : db) :
  initialized d = true ->
  exists fm mr, d = mk_database (Some fm) (Some mr).
Proof.
  destruct d as [[fm|] [mr|]]; simpl; try discriminate.
  intros _. now exists fm, mr.
Qed.

Lemma meal_rows_commit (d : db) (t : table (Meal.t real)) :
  meal_rows (snd (commit_meal_records t d)) = rows t.
Proof. reflexivity. Qed.

Lemma delete_meal_record_run (fm : option (table (Food.t real)))
    (mr : table (Meal.t real)) (record_id : Z) :
  delete_meal_record record_id (mk_database fm (Some mr)) =
  if in_int64 record_id
  then (Return tt,
        mk_database fm
          (Some (sql_delete (fun r => Meal.id r =? record_id) mr)))
  else (Raise (OverflowError
                 "Python int too large to convert to SQLite INTEGER"),
        mk_database fm (Some mr)).
Proof.
  unfold delete_meal_record, bind, bind_integer. cbn.
  destruct (in_int64 record_id); reflexivity.
Qed.

Lemma update_meal_record_run (fm : option (table (Food.t real)))
    (mr : table (Meal.t real)) (record_id : Z)
    (date meal_type food_name : string)
    (amount calories protein fat carbs fiber : real) :
  update_meal_record record_id date meal_type food_name amount calories
    protein fat carbs fiber (mk_database fm (Some mr)) =
  if in_int64 record_id
  then (Return tt,
        mk_database fm
          (Some (sql_update (fun r => Meal.id r =? record_id)
                   (fun r => Meal.mk (Meal.id r) date meal_type food_name
                               amount calories protein fat carbs fiber
                               (Meal.created_at r))
                   mr)))
  else (Raise (OverflowError
                 "Python int too large to convert to SQLite INTEGER"),
        mk_database fm (Some mr)).
Proof.
  unfold update_meal_record, bind, bind_integer. cbn.
  destruct (in_int64 record_id); reflexivity.
Qed.

Lemma filter_all (A : Type) (p : A -> bool) (l : list A) :
  (forall x, In x l -> p x = true) -> filter p l = l.
Proof.
  induction l as [|x l IH]; simpl; intros Hall; [reflexivity|].
  rewrite Hall by now left. f_equal. apply IH. intros y Hy. apply Hall. now right.
Qed.

Lemma filter_filter (A : Type) (p q : A -> bool) (l : list A) :
  filter p (filter q l) = filter (fun x => p x && q x) l.
Proof.
  induction l as [|x l IH]; simpl; [reflexivity|].
  destruct (q x); simpl; rewrite ?andb_true_r, ?andb_false_r;
    [destruct (p x)|]; now rewrite IH.
Qed.

Lemma map_id_on (A : Type) (f : A -> A) (l : list A) :
  (forall x, In x l -> f x = x) -> map f l = l.
Proof.
  induction l as [|x l IH]; simpl; intros Hall; [reflexivity|].
  rewrite Hall by now left. f_equal. apply IH. intros y Hy. apply Hall. now right.
Qed.

(** *** The daily summary *)

Lemma sql_sum_or_0 (col : Meal.t real -> real) (D : string)
    (rs : list (Meal.t real)) :
  or_0 (sql_sum col (sql_where (fun r => Text.eqb (Meal.date r) D) rs))
  = as_number (nutrient_sum col D rs).
Proof.
  unfold nutrient_sum, sql_where, sql_sum, or_0, as_number.
  destruct (filter _ rs) as [|r l]; simpl; [|reflexivity].
  now destruct (real_is_zero real_zero).
Qed.

Lemma nutrient_sum_none (col : Meal.t real -> real) (D : string)
    (rs : list (Meal.t real)) :
  (forall r, In r rs -> Meal.date r <> D) ->
  as_number (nutrient_sum col D rs) = real_zero.
Proof.
  intros Hno. unfold nutrient_sum.
  replace (filter _ rs) with (@nil (Meal.t real)).
  - unfold as_number. simpl. now destruct (real_is_zero real_zero).
  - symmetry. induction rs as [|r rs IH]; simpl; [reflexivity|].
    destruct (Text.eqb (Meal.date r) D) eqn:E.
    + apply TextFacts.eqb_eq in E. exfalso. apply (Hno r); [now left|assumption].
    + apply IH. intros r' Hr'. apply Hno. now right.
Qed.

(** C1. On a file with its tables, for every date D, [get_daily_summary]
    returns a dict whose keys are exactly calories, protein, fat, carbs,
    fiber, in that order; the value under each key is the sum of that
    field over the records dated D (a sum that is zero is returned as
    the number 0); and when no record is dated D every value is 0.  The
    file is left as it was. *)
Theorem get_daily_summary_sums (d : db) (D : string) :
  initialized d = true ->
  exists summary,
    get_daily_summary D d = (Return summary, d) /\
    map fst summary =
      ["calories"; "protein"; "fat"; "carbs"; "fiber"]%string /\
    map snd summary =
      [as_number (nutrient_sum Meal.calories D (meal_rows d));
       as_number (nutrient_sum Meal.protein D (meal_rows d));
       as_number (nutrient_sum Meal.fat D (meal_rows d));
       as_number (nutrient_sum Meal.carbs D (meal_rows d));
       as_number (nutrient_sum Meal.fiber D (meal_rows d))] /\
    ((forall r, In r (meal_rows d) -> Meal.date r <> D) ->
     map snd summary =
       [real_zero; real_zero; real_zero; real_zero; real_zero]).
Proof.
  intros Hinit. destruct (initialized_tables d Hinit) as (fm & mr & ->).
  eexists. split; [reflexivity|]. simpl.
  split; [reflexivity|].
  unfold meal_rows; simpl.
  split.
  - now rewrite !sql_sum_or_0.
  - intros Hno. rewrite !sql_sum_or_0.
    now rewrite !nutrient_sum_none by assumption.
Qed.


(** *** Construction *)

(** C7. [init_db] never raises and leaves both tables in the file; a
    table that was there is kept with all its rows and its counter, a
    table that was not is created empty; running it again changes
    nothing, and on a file that already has both tables it changes
    nothing at all. *)
Theorem init_db_idempotent (d : db) :
  fst (init_db d) = Return tt /\
  initialized (snd (init_db d)) = true /\
  init_db (snd (init_db d)) = (Return tt, snd (init_db d)) /\
  food_master (snd (init_db d)) =
    Some (match food_master d with Some t => t | None => empty_table _ end) /\
  meal_records (snd (init_db d)) =
    Some (match meal_records d with Some t => t | None => empty_table _ end) /\
  food_rows (snd (init_db d)) = food_rows d /\
  meal_rows (snd (init_db d)) = meal_rows d /\
  (initialized d = true -> init_db d = (Return tt, d)).
Proof.
  destruct d as [[fm|] [mr|]]; cbn; repeat split; try reflexivity;
    intros; discriminate.
Qed.

(** *** Frame conditions *)

(** C10. The three meal-record methods hand back the file with
    [food_master] as it was, and [add_food_to_master] hands it back with
    [meal_records] as it was, whether the call returns or raises. *)
Theorem single_table_writes (d : db) (now : string) (record_id : Z)
    (date meal_type food_name name : string)
    (amount calories protein fat carbs fiber : real) :
  food_master
    (snd (add_meal_record now date meal_type food_name amount calories
            protein fat carbs fiber d)) = food_master d /\
  food_master
    (snd (update_meal_record record_id date meal_type food_name amount
            calories protein fat carbs fiber d)) = food_master d /\
  food_master (snd (delete_meal_record record_id d)) = food_master d /\
  meal_records
    (snd (add_food_to_master name calories protein fat carbs fiber d))
  = meal_records d.
Proof.
  destruct d as [fm [mr|]];
    rewrite ?delete_meal_record_run, ?update_meal_record_run;
    destruct (in_int64 record_id); destruct fm; cbn; repeat split.
Qed.

(** C9. Row by row, [update_meal_record] keeps the id and the
    [created_at] of every record, and keeps a record whose id is not
    the given one entirely; no record is added, dropped or moved. *)
Theorem update_meal_record_frame (d : db) (record_id : Z)
    (date meal_type food_name : string)
    (amount calories protein fat carbs fiber : real) :
  Forall2
    (fun before after =>
       Meal.id after = Meal.id before /\
       Meal.created_at after = Meal.created_at before /\
       (Meal.id before <> record_id -> after = before))
    (meal_rows d)
    (meal_rows
       (snd (update_meal_record record_id date meal_type food_name amount
               calories protein fat carbs fiber d))).
Proof.
  destruct d as [fm [mr|]]; [|cbn; constructor].
  rewrite update_meal_record_run. unfold meal_rows.
  destruct (in_int64 record_id); cbn.
  - induction (rows mr) as [|r rs IH]; simpl; constructor; [|exact IH].
    destruct (Z.eqb_spec (Meal.id r) record_id) as [E|E]; simpl.
    + repeat split; try reflexivity. intros Hne. contradiction.
    + repeat split; reflexivity.
  - induction (rows mr) as [|r rs IH]; constructor; [|exact IH].
    repeat split; reflexivity.
Qed.

(** *** Deleting *)

(** C5, amended.  On a file with its tables, [delete_meal_record] with
    an id that fits a signed 64-bit integer returns without raising;
    afterwards the records are those whose id is not the given one, in
    their order, and [food_master] is as before; when no record has the
    id the file is exactly as before, with the same outcome.  An id that
    does not fit is refused when it is bound: the call raises
    [OverflowError] and the file is as before. *)
Theorem delete_meal_record_spec (d : db) (record_id : Z) :
  initialized d = true ->
  (in_int64 record_id = true ->
   fst (delete_meal_record record_id d) = Return tt /\
   meal_rows (snd (delete_meal_record record_id d)) =
     filter (fun r => negb (Meal.id r =? record_id)) (meal_rows d) /\
   (forall r, In r (meal_rows (snd (delete_meal_record record_id d))) ->
              Meal.id r <> record_id) /\
   (forall r, In r (meal_rows d) -> Meal.id r <> record_id ->
              In r (meal_rows (snd (delete_meal_record record_id d)))) /\
   food_master (snd (delete_meal_record record_id d)) = food_master d /\
   ((forall r, In r (meal_rows d) -> Meal.id r <> record_id) ->
    delete_meal_record record_id d = (Return tt, d))) /\
  (in_int64 record_id = false ->
   delete_meal_record record_id d =
     (Raise (OverflowError
               "Python int too large to convert to SQLite INTEGER"), d)).
Proof.
  intros Hinit. destruct (initialized_tables d Hinit) as (fm & mr & ->).
  rewrite delete_meal_record_run.
  split; intros Hid; rewrite Hid; [|reflexivity].
  cbn. repeat split.
  - intros r Hr. apply filter_In in Hr. destruct Hr as [_ Hr].
    apply negb_true_iff, Z.eqb_neq in Hr. exact Hr.
  - intros r Hr Hne. apply filter_In. split; [exact Hr|].
    now apply negb_true_iff, Z.eqb_neq.
  - intros Hno. unfold sql_delete. cbn.
    rewrite filter_all.
    + now destruct mr.
    + intros r Hr. apply negb_true_iff, Z.eqb_neq. now apply Hno.
Qed.

(** *** Range queries *)

Lemma date_created_leb_spec (a b : Meal.t real) :
  date_created_leb a b = true <-> date_created_le a b.
Proof.
  unfold date_created_leb, date_created_le.
  rewrite orb_true_iff, andb_true_iff, TextFacts.eqb_eq. tauto.
Qed.

Lemma date_created_leb_total (a b : Meal.t real) :
  date_created_leb a b = true \/ date_created_leb b a = true.
Proof.
  rewrite !date_created_leb_spec. unfold date_created_le.
  destruct (TextFacts.leb_total (Meal.date a) (Meal.date b)) as [Hab|Hba].
  - apply TextFacts.leb_ltb_or_eq in Hab. destruct Hab as [Hlt|Heq]; [now left; left|].
    destruct (TextFacts.leb_total (Meal.created_at a) (Meal.created_at b));
      [left|right]; right; split; congruence.
  - apply TextFacts.leb_ltb_or_eq in Hba. destruct Hba as [Hlt|Heq]; [now right; left|].
    destruct (TextFacts.leb_total (Meal.created_at a) (Meal.created_at b));
      [left|right]; right; split; congruence.
Qed.

Lemma date_created_le_trans (a b c : Meal.t real) :
  date_created_le a b -> date_created_le b c -> date_created_le a c.
Proof.
  unfold date_created_le.
  intros [Hab|[Eab Cab]] [Hbc|[Ebc Cbc]].
  - left. eapply TextFacts.ltb_trans; eauto.
  - left. now rewrite <- Ebc.
  - left. now rewrite Eab.
  - right. split; [congruence|]. eapply TextFacts.leb_trans; eauto.
Qed.

Lemma Sorted_strongly (A : Type) (R : A -> A -> Prop) (l : list A) :
  (forall a b c, R a b -> R b c -> R a c) ->
  Sorted R l -> StronglySorted R l.
Proof.
  intros Htrans. induction 1 as [|x l Hs IH Hhd]; constructor; [exact IH|].
  clear Hs. induction IH as [|y l Hl IHl Hall]; [constructor|].
  inversion Hhd as [|? ? Hxy]; subst.
  constructor; [exact Hxy|].
  apply Forall_forall. intros z Hz.
  apply Htrans with y; [exact Hxy|].
  now apply (proj1 (Forall_forall _ _) Hall).
Qed.

Lemma Sorted_impl (A : Type) (R R' : A -> A -> Prop) (l : list A) :
  (forall a b, R a b -> R' a b) -> Sorted R l -> Sorted R' l.
Proof.
  intros Himp. induction 1 as [|x l Hs IH Hhd]; constructor; [exact IH|].
  destruct Hhd; constructor. now apply Himp.
Qed.

(** C3. On a file with its tables, [get_meals_by_date_range] returns
    the records whose date is between the two bounds, both included, in
    the bytewise order of TEXT: each such record as often as it is
    stored, no other record, every earlier row of the result at or
    before every later one in (date, created_at). *)
Theorem get_meals_by_date_range_exact (d : db) (startDate endDate : string) :
  initialized d = true ->
  exists result,
    get_meals_by_date_range startDate endDate d = (Return result, d) /\
    Permutation result
      (filter (fun r => Text.leb startDate (Meal.date r)
                        && Text.leb (Meal.date r) endDate) (meal_rows d)) /\
    (forall r, In r result <->
               In r (meal_rows d) /\
               Text.leb startDate (Meal.date r) = true /\
               Text.leb (Meal.date r) endDate = true) /\
    StronglySorted date_created_le result.
Proof.
  intros Hinit. destruct (initialized_tables d Hinit) as (fm & mr & ->).
  eexists. split; [reflexivity|]. unfold meal_rows; simpl.
  split; [|split].
  - symmetry. apply sql_order_by_perm.
  - intros r. rewrite sql_order_by_In. unfold sql_where.
    rewrite filter_In, TextFacts.between_spec. tauto.
  - apply Sorted_strongly; [exact date_created_le_trans|].
    eapply Sorted_impl; [|apply sql_order_by_sorted, date_created_leb_total].
    intros a b. apply date_created_leb_spec.
Qed.


(** *** The food master *)

Lemma food_dict_row (row : Food.t real) :
  Food.mk (Food.id row) (Food.name row) (Food.calories row)
    (Food.protein row) (Food.fat row) (Food.carbs row) (Food.fiber row) = row.
Proof. now destruct row. Qed.

Lemma get_all_foods_run (fm : table (Food.t real))
    (mr : option (table (Meal.t real))) :
  get_all_foods (mk_database (Some fm) mr) =
  (Return (sql_order_by (fun a b => Text.leb (Food.name a) (Food.name b))
             (rows fm)),
   mk_database (Some fm) mr).
Proof.
  cbn. rewrite map_id_on; [reflexivity|].
  intros row _. apply food_dict_row.
Qed.

(** C6. On a file with its tables, [add_food_to_master] returns, and
    [get_all_foods] then lists an entry with exactly the given name and
    the five given values; the list is in ascending order of name and
    holds, next to the new entry, every entry stored before, so an
    earlier entry of the same name stays listed beside it. *)
Theorem add_food_then_listed (d : db) (name : string)
    (calories protein fat carbs fiber : real) :
  initialized d = true ->
  exists d1 foods i,
    add_food_to_master name calories protein fat carbs fiber d
      = (Return tt, d1) /\
    get_all_foods d1 = (Return foods, d1) /\
    In (Food.mk i name calories protein fat carbs fiber) foods /\
    StronglySorted name_le foods /\
    Permutation foods
      (Food.mk i name calories protein fat carbs fiber :: food_rows d).
Proof.
  intros Hinit. destruct (initialized_tables d Hinit) as (fm & mr & ->).
  eexists. eexists. exists (next_rowid Food.id fm).
  split; [reflexivity|]. cbn [meal_records food_master].
  split; [apply get_all_foods_run|].
  cbn [rows sql_insert food_rows food_master].
  assert (Hperm : Permutation
            (sql_order_by (fun a b => Text.leb (Food.name a) (Food.name b))
               (rows fm ++
                  [Food.mk (next_rowid Food.id fm) name calories protein fat
                     carbs fiber]))
            (Food.mk (next_rowid Food.id fm) name calories protein fat carbs
               fiber :: rows fm)).
  { rewrite <- sql_order_by_perm. rewrite Permutation_app_comm. reflexivity. }
  split; [|split].
  - eapply Permutation_in; [symmetry; exact Hperm|]. now left.
  - apply Sorted_strongly.
    + intros a b c. unfold name_le. apply TextFacts.leb_trans.
    + apply sql_order_by_sorted. intros a b. apply TextFacts.leb_total.
  - exact Hperm.
Qed.


(** *** Updating *)





(** *** GROUP BY over sorted rows *)

Section Runs.
Variable row : Type.
Variable key : row -> string.

Lemma sql_group_by_runs (l : list row) :
  StronglySorted (fun a b => Text.leb (key a) (key b) = true) l ->
  exists gks,
    sql_group_by key l = map fst gks /\
    Forall (run_of key) gks /\
    List.concat (map fst gks) = l /\
    StronglySorted (fun a b => Text.ltb a b = true) (map snd gks).
Proof.
  induction 1 as [|r l Hs IH Hall].
  - exists []. repeat split; constructor.
  - destruct IH as (gks & HG & Hruns & Hcat & Hks). simpl. rewrite HG.
    destruct gks as [|[g k] gks]; simpl.
    + exists [([r], key r)]. simpl in Hcat. subst l. simpl.
      repeat split; try reflexivity.
      * constructor; [|constructor]. split; simpl; [discriminate|].
        intros r0 [<-|[]]. reflexivity.
      * repeat constructor.
    + inversion Hruns as [|? ? [Hne Hkey] Hruns']; subst. simpl in Hne, Hkey.
      destruct g as [|r' g]; [contradiction|].
      assert (Hr' : key r' = k) by (apply Hkey; now left).
      assert (Hle : Text.leb (key r) k = true).
      { rewrite <- Hr'. apply (proj1 (Forall_forall _ _) Hall). now left. }
      destruct (Text.eqb (key r) (key r')) eqn:E.
      * apply TextFacts.eqb_eq in E.
        exists ((r :: r' :: g, k) :: gks). simpl. repeat split.
        -- constructor; [|exact Hruns']. split; simpl; [discriminate|].
           intros r0 [<-|Hr0]; [congruence|]. now apply Hkey.
        -- exact Hks.
      * exists (([r], key r) :: (r' :: g, k) :: gks). simpl. repeat split.
        -- constructor; [|exact Hruns]. split; simpl; [discriminate|].
           intros r0 [<-|[]]. reflexivity.
        -- assert (Hlt : Text.ltb (key r) k = true).
           { apply TextFacts.leb_ltb_or_eq in Hle. destruct Hle as [Hlt|Heq]; [exact Hlt|].
             rewrite <- Hr' in Heq. apply TextFacts.eqb_eq in Heq. congruence. }
           constructor; [exact Hks|]. simpl in Hks.
           apply StronglySorted_inv in Hks. destruct Hks as [_ Hall'].
           constructor; [exact Hlt|].
           apply Forall_forall. intros k' Hk'.
           apply TextFacts.ltb_trans with k; [exact Hlt|].
           now apply (proj1 (Forall_forall _ _) Hall').
Qed.

Lemma runs_key_listed (gks : list (list row * string)) (r : row) :
  Forall (run_of key) gks -> In r (List.concat (map fst gks)) -> In (key r) (map snd gks).
Proof.
  induction 1 as [|[g k] gks [_ Hkey] _ IH]; simpl; [tauto|].
  rewrite in_app_iff. intros [Hr|Hr]; [left|right; now apply IH].
  symmetry. now apply Hkey.
Qed.

Lemma filter_none (A : Type) (p : A -> bool) (l : list A) :
  (forall x, In x l -> p x = false) -> filter p l = [].
Proof.
  induction l as [|x l IH]; simpl; intros Hall; [reflexivity|].
  rewrite Hall by now left. apply IH. intros y Hy. apply Hall. now right.
Qed.

(** With pairwise different keys, a group is all the rows of its key. *)
Lemma run_is_key_class (gks : list (list row * string))
    (g : list row) (k : string) :
  Forall (run_of key) gks -> NoDup (map snd gks) -> In (g, k) gks ->
  filter (fun r => Text.eqb (key r) k) (List.concat (map fst gks)) = g.
Proof.
  induction 1 as [|[g0 k0] gks [Hne Hkey] Hruns IH]; simpl; [tauto|].
  intros Hnd Hin. inversion Hnd as [|? ? Hfresh Hnd']; subst.
  rewrite filter_app. simpl in Hkey.
  destruct Hin as [Heq|Hin].
  - injection Heq as -> ->.
    rewrite filter_all, filter_none; [apply app_nil_r| |].
    + intros r Hr. destruct (Text.eqb (key r) k) eqn:E; [|reflexivity].
      apply TextFacts.eqb_eq in E. exfalso. apply Hfresh. rewrite <- E.
      now apply runs_key_listed.
    + intros r Hr. apply TextFacts.eqb_eq. now apply Hkey.
  - rewrite IH by assumption. rewrite filter_none; [reflexivity|].
    intros r Hr. destruct (Text.eqb (key r) k) eqn:E; [|reflexivity].
    apply TextFacts.eqb_eq in E. exfalso. apply Hfresh.
    rewrite <- (Hkey r Hr), E. apply in_map_iff. now exists (g, k).
Qed.

Lemma ascending_NoDup (ks : list string) :
  StronglySorted (fun a b => Text.ltb a b = true) ks -> NoDup ks.
Proof.
  induction 1 as [|k ks _ IH Hall]; constructor; [|exact IH].
  intros Hin. apply (proj1 (Forall_forall _ _) Hall) in Hin.
  rewrite TextFacts.ltb_irrefl in Hin. discriminate.
Qed.

End Runs.


(** *** The period summary *)

Lemma period_rows_of_runs (gks : list (list (Meal.t real) * string)) :
  Forall (run_of Meal.date) gks ->
  flat_map (fun g => match g with
                     | [] => []
                     | r :: _ => [period_row (Meal.date r) g]
                     end) (map fst gks)
  = map (fun gk => period_row (snd gk) (fst gk)) gks.
Proof.
  induction 1 as [|[g k] gks [Hne Hkey] _ IH]; simpl; [reflexivity|].
  simpl in Hne, Hkey. destruct g as [|r g]; [contradiction|].
  rewrite IH. simpl. now rewrite (Hkey r (or_introl eq_refl)).
Qed.

Lemma StronglySorted_map (A B : Type) (f : A -> B) (R : B -> B -> Prop)
    (l : list A) :
  StronglySorted R (map f l) -> StronglySorted (fun a b => R (f a) (f b)) l.
Proof.
  induction l as [|x l IH]; simpl; intros Hs; [constructor|].
  apply StronglySorted_inv in Hs. destruct Hs as [Hs Hall].
  constructor; [now apply IH|].
  apply Forall_forall. intros y Hy.
  apply (proj1 (Forall_forall _ _) Hall). now apply in_map.
Qed.

Lemma sql_sum_group (col : Meal.t real -> real) (D : string)
    (rs g : list (Meal.t real)) :
  g <> [] ->
  g = filter (fun r => Text.eqb (Meal.date r) D) rs ->
  sql_sum col g = Some (nutrient_sum col D rs).
Proof.
  intros Hne ->. unfold sql_sum, nutrient_sum.
  destruct (filter _ rs); [contradiction|reflexivity].
Qed.

(** C2. On a file with its tables, [get_period_summary] returns rows
    whose dates are strictly ascending, hence one row per date; a date
    has a row exactly when it lies between the two bounds and some
    record carries it; and the five totals of a row are the sums of the
    fields over the records of its date. *)
Theorem get_period_summary_sparse (d : db) (startDate endDate : string) :
  initialized d = true ->
  exists result,
    get_period_summary startDate endDate d = (Return result, d) /\
    StronglySorted date_ascending result /\
    NoDup (map Period.date result) /\
    (forall D, In D (map Period.date result) <->
               (Text.leb startDate D = true /\ Text.leb D endDate = true) /\
               exists r, In r (meal_rows d) /\ Meal.date r = D) /\
    (forall p, In p result ->
       Period.total_calories p
         = Some (nutrient_sum Meal.calories (Period.date p) (meal_rows d)) /\
       Period.total_protein p
         = Some (nutrient_sum Meal.protein (Period.date p) (meal_rows d)) /\
       Period.total_fat p
         = Some (nutrient_sum Meal.fat (Period.date p) (meal_rows d)) /\
       Period.total_carbs p
         = Some (nutrient_sum Meal.carbs (Period.date p) (meal_rows d)) /\
       Period.total_fiber p
         = Some (nutrient_sum Meal.fiber (Period.date p) (meal_rows d))).
Proof.
  intros Hinit. destruct (initialized_tables d Hinit) as (fm & mr & ->).
  eexists. split; [reflexivity|]. unfold meal_rows; simpl meal_records.
  set (inside := fun r : Meal.t real =>
                   Text.between startDate endDate (Meal.date r)).
  set (selected := sql_where inside (rows mr)).
  set (sorted := sql_order_by
                   (fun a b => Text.leb (Meal.date a) (Meal.date b)) selected).
  assert (Hsorted : StronglySorted
                      (fun a b => Text.leb (Meal.date a) (Meal.date b) = true)
                      sorted).
  { apply Sorted_strongly.
    - intros a b c. apply TextFacts.leb_trans.
    - apply sql_order_by_sorted. intros a b. apply TextFacts.leb_total. }
  destruct (sql_group_by_runs Meal.date Hsorted)
    as (gks & HG & Hruns & Hcat & Hks).
  rewrite HG, (period_rows_of_runs Hruns).
  assert (Hdates : map Period.date
                     (map (fun gk => period_row (snd gk) (fst gk)) gks)
                   = map snd gks).
  { rewrite map_map. apply map_ext. reflexivity. }
  assert (Hsel : forall r, In r sorted <-> In r (rows mr) /\ inside r = true).
  { intros r. unfold sorted. rewrite sql_order_by_In. apply filter_In. }
  rewrite Hdates.
  split; [|split; [|split]].
  - apply (@StronglySorted_map _ _ Period.date
             (fun a b => Text.ltb a b = true)).
    now rewrite Hdates.
  - now apply ascending_NoDup.
  - intros D. split.
    + intros HD. apply in_map_iff in HD. destruct HD as ([g k] & <- & Hgk).
      pose proof (proj1 (Forall_forall _ _) Hruns _ Hgk) as [Hne Hkey].
      simpl in *. destruct g as [|r g]; [contradiction|].
      assert (Hr : In r sorted).
      { rewrite <- Hcat. apply in_concat. exists (r :: g).
        split; [|now left]. apply in_map_iff. now exists (r :: g, k). }
      apply Hsel in Hr. destruct Hr as [Hr Hin].
      rewrite <- (Hkey r (or_introl eq_refl)).
      split; [now apply TextFacts.between_spec|]. now exists r.
    + intros [Hbetween (r & Hr & <-)].
      apply runs_key_listed; [exact Hruns|]. rewrite Hcat.
      apply Hsel. split; [exact Hr|]. now apply TextFacts.between_spec.
  - intros p Hp. apply in_map_iff in Hp. destruct Hp as ([g k] & <- & Hgk).
    pose proof (proj1 (Forall_forall _ _) Hruns _ Hgk) as [Hne Hkey].
    simpl in Hne, Hkey. cbn [fst snd period_row Period.date
      Period.total_calories Period.total_protein Period.total_fat
      Period.total_carbs Period.total_fiber].
    assert (Hg : g = filter (fun r => Text.eqb (Meal.date r) k) (rows mr)).
    { rewrite <- (@run_is_key_class _ Meal.date gks g k Hruns
                    (ascending_NoDup Hks) Hgk).
      rewrite Hcat. unfold sorted.
      rewrite sql_order_by_filter.
      - unfold selected, sql_where. rewrite filter_filter.
        apply filter_ext_in. intros r Hr.
        destruct (Text.eqb (Meal.date r) k) eqn:E; [|reflexivity].
        apply TextFacts.eqb_eq in E. simpl.
        destruct g as [|r0 g0]; [contradiction|].
        assert (Hr0 : In r0 sorted).
        { rewrite <- Hcat. apply in_concat. exists (r0 :: g0).
          split; [|now left]. apply in_map_iff. now exists (r0 :: g0, k). }
        apply Hsel in Hr0. destruct Hr0 as [_ Hin]. unfold inside in *.
        now rewrite E, <- (Hkey r0 (or_introl eq_refl)).
      - intros x y Hx Hy. apply TextFacts.eqb_eq in Hx, Hy.
        rewrite Hx, Hy. apply TextFacts.leb_refl. }
    repeat split; now apply sql_sum_group.
Qed.


(** *** The primary keys *)

Section Keys.
Variable row : Type.
Variable rowid : row -> Z.

Lemma max_rowid_bound (rs : list row) (r : row) :
  In r rs -> rowid r <= max_rowid rowid rs.
Proof.
  induction rs as [|x rs IH]; simpl; [tauto|].
  intros [->|Hr]; [lia|]. specialize (IH Hr). lia.
Qed.

Lemma ascending_snoc (l : list Z) (x : Z) :
  StronglySorted Z.lt l -> Forall (fun y => y < x) l ->
  StronglySorted Z.lt (l ++ [x]).
Proof.
  induction 1 as [|y l Hs IH Hall]; simpl; intros Hlt.
  - repeat constructor.
  - inversion Hlt as [|? ? Hyx Hlt']; subst.
    constructor; [now apply IH|].
    apply Forall_app. split; [exact Hall|]. now repeat constructor.
Qed.

Lemma ascending_filter (p : row -> bool) (rs : list row) :
  StronglySorted Z.lt (map rowid rs) ->
  StronglySorted Z.lt (map rowid (filter p rs)).
Proof.
  induction rs as [|r rs IH]; simpl; intros Hs; [constructor|].
  apply StronglySorted_inv in Hs. destruct Hs as [Hs Hall].
  destruct (p r); simpl; [|now apply IH].
  constructor; [now apply IH|].
  apply Forall_forall. intros y Hy. apply in_map_iff in Hy.
  destruct Hy as (r' & <- & Hr'). apply filter_In in Hr'.
  apply (proj1 (Forall_forall _ _) Hall). apply in_map. tauto.
Qed.

Lemma empty_table_keyed : keyed rowid (empty_table row).
Proof. split; constructor. Qed.

Lemma sql_insert_keyed (values : Z -> row) (t : table row) :
  (forall i, rowid (values i) = i) ->
  keyed rowid t -> keyed rowid (sql_insert rowid values t).
Proof.
  intros Hid [Hs Hb]. unfold sql_insert, next_rowid, keyed. simpl.
  split.
  - rewrite map_app. simpl. rewrite Hid. apply ascending_snoc; [exact Hs|].
    apply Forall_forall. intros y Hy. apply in_map_iff in Hy.
    destruct Hy as (r & <- & Hr). apply max_rowid_bound in Hr. lia.
  - apply Forall_app. split.
    + apply Forall_forall. intros r Hr. apply max_rowid_bound in Hr. lia.
    + constructor; [|constructor]. rewrite Hid. lia.
Qed.

Lemma sql_update_keyed (p : row -> bool) (set : row -> row) (t : table row) :
  (forall r, rowid (set r) = rowid r) ->
  keyed rowid t -> keyed rowid (sql_update p set t).
Proof.
  intros Hid [Hs Hb]. unfold sql_update, keyed. simpl.
  assert (Hsame : forall r, rowid (if p r then set r else r) = rowid r).
  { intros r. destruct (p r); [apply Hid|reflexivity]. }
  split.
  - rewrite map_map. now rewrite (map_ext _ _ Hsame).
  - apply Forall_forall. intros r Hr. apply in_map_iff in Hr.
    destruct Hr as (r0 & <- & Hr0). rewrite Hsame.
    now apply (proj1 (Forall_forall _ _) Hb).
Qed.

Lemma sql_delete_keyed (p : row -> bool) (t : table row) :
  keyed rowid t -> keyed rowid (sql_delete p t).
Proof.
  intros [Hs Hb]. unfold sql_delete, keyed. simpl. split.
  - now apply ascending_filter.
  - apply Forall_forall. intros r Hr. apply filter_In in Hr.
    now apply (proj1 (Forall_forall _ _) Hb).
Qed.

Lemma keyed_NoDup (t : table row) : keyed rowid t -> NoDup (map rowid (rows t)).
Proof.
  intros [Hs _]. induction Hs as [|x l _ IH Hall]; constructor; [|exact IH].
  intros Hin. apply (proj1 (Forall_forall _ _) Hall) in Hin. lia.
Qed.

End Keys.

(** One step of a method on a keyed table. *)
Ltac keep_keyed Hf Hm :=
  first
    [ now apply Hf
    | now apply Hm
    | apply empty_table_keyed
    | apply sql_insert_keyed;
      [reflexivity | first [now apply Hf | now apply Hm]]
    | apply sql_delete_keyed; now apply Hm
    | apply sql_update_keyed; [reflexivity | now apply Hm] ].

Lemma reachable_consistent (d : db) : reachable d -> consistent d.
Proof.
  induction 1 as [|d _ IH|d ? ? ? ? ? ? _ IH|d ? ? ? ? ? ? ? ? ? ? _ IH
                  |d ? _ IH|d ? ? ? ? ? ? ? ? ? ? _ IH];
    [split; intros t Ht; discriminate|..];
    destruct IH as [Hf Hm]; destruct d as [[fm|] [mr|]];
    rewrite ?delete_meal_record_run, ?update_meal_record_run;
    try match goal with
        | |- context [in_int64 ?z] => destruct (in_int64 z)
        end;
    cbn; split; intros t Ht; cbn in Ht; try discriminate;
    injection Ht as <-; keep_keyed Hf Hm.
Qed.

(** In a reachable file no two meal records share an id, so "the record
    with that id" is one record at most. *)
Lemma reachable_unique_ids (d : db) :
  reachable d ->
  NoDup (map Meal.id (meal_rows d)) /\ NoDup (map Food.id (food_rows d)).
Proof.
  intros Hr. destruct (reachable_consistent Hr) as [Hf Hm].
  unfold meal_rows, food_rows.
  split.
  - destruct (meal_records d) as [t|]; [|constructor].
    now apply keyed_NoDup, Hm.
  - destruct (food_master d) as [t|]; [|constructor].
    now apply keyed_NoDup, Hf.
Qed.

End Properties.

(* ================================================================== *)
(** ** The scaling of [app.py] on binary64 *)
(* ================================================================== *)

Section Scaling.
Local Open Scope float_scope.

(** C8, as stated, fails: 0.3 * 1.5 is not the double 0.45 (nor is
    37.1 * 1.5 the double 55.65), so 150 g of rice do not scale to
    exactly the expected values. *)
Lemma rice_150_not_exact :
  App.calc_nutrients (App.rice 1) 150 <> expected_rice_150.
Proof.
  intros Heq.
  apply (f_equal (fun c => PrimFloat.eqb (App.calc_fat c) 0.45)) in Heq.
  vm_compute in Heq. discriminate.
Qed.

(** C8, amended.  For rice at 150 g the ratio is exactly 1.5; calories
    and protein come out exactly as 252.0 and 3.75; fat, carbs and
    fiber are the rounded binary64 products 0.44999999999999996,
    55.650000000000006 and 0.44999999999999996, each the double next to
    the one that 0.45, 55.65 and 0.45 denote. *)
Theorem rice_150_scaled (id : Z) :
  let c := App.calc_nutrients (App.rice id) 150 in
  150 / 100.0 = 1.5 /\
  c = App.mk_calc 252.0 3.75 0.44999999999999996 55.650000000000006
        0.44999999999999996 /\
  PrimFloat.next_up (App.calc_fat c) = 0.45 /\
  PrimFloat.next_down (App.calc_carbs c) = 55.65 /\
  PrimFloat.next_up (App.calc_fiber c) = 0.45.
Proof. repeat split. Qed.

(** The scenario end to end: the food is added, the meal recorded, and
    the stored row carries the scaled values. *)
Example rice_150_recorded :
  let d := snd (init_db Session.no_file) in
  let d := snd (add_food_to_master "Rice" 168 2.5 0.3 37.1 0.3 d) in
  let d := snd (App.record_meal "2024-01-05 12:00:00" "2024-01-05" "lunch"
                  "Rice" 150 d) in
  meal_rows d =
    [Meal.mk 1 "2024-01-05" "lunch" "Rice" 150 252.0 3.75
       0.44999999999999996 55.650000000000006 0.44999999999999996
       "2024-01-05 12:00:00"].
Proof. reflexivity. Qed.

End Scaling.

(* ================================================================== *)
(** ** The properties at work on the session *)
(* ================================================================== *)

Section OnTheSession.
Local Open Scope string_scope.
Local Open Scope float_scope.

(** The daily summary of the 5th of the session. *)
Lemma get_daily_summary_sums_witness :
  initialized Session.logged = true /\
  exists summary,
    get_daily_summary "2024-01-05" Session.logged
      = (Return summary, Session.logged) /\
    map fst summary = ["calories"; "protein"; "fat"; "carbs"; "fiber"] /\
    map snd summary =
      [as_number (nutrient_sum Meal.calories "2024-01-05"
                    (meal_rows Session.logged));
       as_number (nutrient_sum Meal.protein "2024-01-05"
                    (meal_rows Session.logged));
       as_number (nutrient_sum Meal.fat "2024-01-05"
                    (meal_rows Session.logged));
       as_number (nutrient_sum Meal.carbs "2024-01-05"
                    (meal_rows Session.logged));
       as_number (nutrient_sum Meal.fiber "2024-01-05"
                    (meal_rows Session.logged))] /\
    ((forall r, In r (meal_rows Session.logged) ->
                Meal.date r <> "2024-01-05") ->
     map snd summary =
       [real_zero; real_zero; real_zero; real_zero; real_zero]).
Proof.
  split; [reflexivity|].
  apply (get_daily_summary_sums Session.logged "2024-01-05"). reflexivity.
Defined.

(** The period summary of the session from the 1st to the 8th. *)
Lemma get_period_summary_sparse_witness :
  initialized Session.logged = true /\
  exists result,
    get_period_summary "2024-01-01" "2024-01-08" Session.logged
      = (Return result, Session.logged) /\
    StronglySorted date_ascending result /\
    NoDup (map Period.date result) /\
    (forall D, In D (map Period.date result) <->
               (Text.leb "2024-01-01" D = true /\
                Text.leb D "2024-01-08" = true) /\
               exists r, In r (meal_rows Session.logged) /\ Meal.date r = D).
Proof.
  split; [reflexivity|].
  destruct (get_period_summary_sparse Session.logged "2024-01-01"
              "2024-01-08" eq_refl)
    as (result & Hrun & Hasc & Hnd & Hdates & _).
  exists result. auto.
Defined.

(** The gap between the 1st and the 5th gives no row, the 10th is out
    of range, and the two meals of the 5th are one row. *)
Example get_period_summary_two_rows :
  fst (get_period_summary "2024-01-01" "2024-01-08" Session.logged)
  = Return [Period.mk "2024-01-01" (Some 151) (Some 12.3) (Some 10.3)
              (Some 0.3) (Some 0);
            Period.mk "2024-01-05" (Some 487) (Some 17.3) (Some 10.9)
              (Some 74.5) (Some 0.6)].
Proof. reflexivity. Qed.

(** The range query of the session from the 2nd to the 8th. *)
Lemma get_meals_by_date_range_exact_witness :
  initialized Session.logged = true /\
  exists result,
    get_meals_by_date_range "2024-01-02" "2024-01-08" Session.logged
      = (Return result, Session.logged) /\
    (forall r, In r result <->
               In r (meal_rows Session.logged) /\
               Text.leb "2024-01-02" (Meal.date r) = true /\
               Text.leb (Meal.date r) "2024-01-08" = true) /\
    StronglySorted date_created_le result.
Proof.
  split; [reflexivity|].
  destruct (get_meals_by_date_range_exact Session.logged "2024-01-02"
              "2024-01-08" eq_refl)
    as (result & Hrun & _ & Hin & Hsorted).
  exists result. auto.
Defined.

(** Of the meals on the 1st, 5th and 10th only those of the 5th are
    returned, the earlier entry first. *)
Example get_meals_by_date_range_only_5th :
  fst (get_meals_by_date_range "2024-01-02" "2024-01-08" Session.logged)
  = Return [Meal.mk 1 "2024-01-05" "lunch" "Rice" 200 336 5 0.6 74.2 0.6
              "2024-01-05 12:10:00";
            Meal.mk 4 "2024-01-05" "breakfast" "Egg" 100 151 12.3 10.3 0.3 0
              "2024-01-10 07:50:00"].
Proof. reflexivity. Qed.


(** The meal of the 1st moved to the 5th: gone from a query for the
    1st, present with its new values in a query for the 5th. *)
Example update_meal_record_moves :
  let d1 := snd (update_meal_record 2 "2024-01-05" "dinner" "Egg" 120 181.2
                   14.76 12.36 0.36 0 Session.logged) in
  fst (get_meals_by_date_range "2024-01-01" "2024-01-01" d1) = Return [] /\
  fst (get_meals_by_date_range "2024-01-05" "2024-01-05" d1)
  = Return [Meal.mk 1 "2024-01-05" "lunch" "Rice" 200 336 5 0.6 74.2 0.6
              "2024-01-05 12:10:00";
            Meal.mk 2 "2024-01-05" "dinner" "Egg" 120 181.2 14.76 12.36 0.36
              0 "2024-01-05 19:30:00";
            Meal.mk 4 "2024-01-05" "breakfast" "Egg" 100 151 12.3 10.3 0.3 0
              "2024-01-10 07:50:00"].
Proof. split; reflexivity. Qed.

(** Deleting id 99, which the session never handed out. *)
Lemma delete_meal_record_spec_witness :
  initialized Session.logged = true /\
  in_int64 99 = true /\
  fst (delete_meal_record 99 Session.logged) = Return tt /\
  delete_meal_record 99 Session.logged = (Return tt, Session.logged).
Proof.
  split; [reflexivity|]. split; [reflexivity|].
  destruct (delete_meal_record_spec Session.logged 99 eq_refl)
    as [Hfits _].
  destruct (Hfits eq_refl) as (Hret & _ & _ & _ & _ & Hnoop).
  split; [exact Hret|]. apply Hnoop.
  intros r Hr. simpl in Hr.
  repeat (destruct Hr as [<-|Hr]; [discriminate|]). contradiction.
Defined.

(** C5, as stated, fails: no record of the session has the id 2^63,
    and yet deleting it raises. *)
Lemma delete_meal_record_beyond_int64 :
  initialized Session.logged = true /\
  (forall r, In r (meal_rows Session.logged) -> Meal.id r <> (2 ^ 63)%Z) /\
  fst (delete_meal_record (2 ^ 63) Session.logged) =
    Raise (OverflowError "Python int too large to convert to SQLite INTEGER").
Proof.
  split; [reflexivity|]. split; [|reflexivity].
  intros r Hr. simpl in Hr.
  repeat (destruct Hr as [<-|Hr]; [discriminate|]). contradiction.
Qed.

(** A second food named Rice added to the session. *)
Lemma add_food_then_listed_witness :
  initialized Session.foods_only = true /\
  exists d1 foods i,
    add_food_to_master "Rice" 130 2.4 0.2 28.7 0.4 Session.foods_only
      = (Return tt, d1) /\
    get_all_foods d1 = (Return foods, d1) /\
    In (Food.mk i "Rice" 130 2.4 0.2 28.7 0.4) foods /\
    StronglySorted name_le foods /\
    Permutation foods
      (Food.mk i "Rice" 130 2.4 0.2 28.7 0.4 :: food_rows Session.foods_only).
Proof.
  split; [reflexivity|].
  apply (add_food_then_listed Session.foods_only "Rice" 130 2.4 0.2 28.7 0.4).
  reflexivity.
Defined.

(** A second "Rice" is listed beside the first. *)
Example add_food_duplicate_name :
  let d1 := snd (add_food_to_master "Rice" 130 2.4 0.2 28.7 0.4
                   Session.foods_only) in
  fst (get_all_foods d1)
  = Return [Food.mk 2 "Egg" 151 12.3 10.3 0.3 0;
            Food.mk 1 "Rice" 168 2.5 0.3 37.1 0.3;
            Food.mk 3 "Rice" 130 2.4 0.2 28.7 0.4].
Proof. reflexivity. Qed.

(** No meal on the 2nd: five zeros. *)
Example get_daily_summary_empty_day :
  fst (get_daily_summary "2024-01-02" Session.logged)
  = Return [("calories", 0); ("protein", 0); ("fat", 0); ("carbs", 0);
            ("fiber", 0)].
Proof. reflexivity. Qed.

(** The session is a reachable file, so its ids are pairwise different. *)
Example session_reachable : reachable Session.logged.
Proof.
  unfold Session.logged, Session.foods_only. cbv zeta.
  do 4 apply reach_add_meal. do 2 apply reach_add_food.
  apply reach_init_db. apply reach_new.
Qed.

End OnTheSession.

(* ================================================================== *)
(** ** More of the store: the day view, inserts, empty ranges *)
(* ================================================================== *)

Section DayView.
Context {real : Type} `{Numeric real}.

Local Abbreviation db := (database real).

(** On a file with its tables, [get_meals_by_date] returns the records
    of that very date and no other, each as often as it is stored, in
    ascending order of [created_at]; the file is left as it was. *)
Theorem get_meals_by_date_exact (d : db) (D : string) :
  initialized d = true ->
  exists result,
    get_meals_by_date D d = (Return result, d) /\
    Permutation result
      (filter (fun r => Text.eqb (Meal.date r) D) (meal_rows d)) /\
    (forall r, In r result <-> In r (meal_rows d) /\ Meal.date r = D) /\
    StronglySorted
      (fun a b => Text.leb (Meal.created_at a) (Meal.created_at b) = true)
      result.
Proof.
  intros Hinit. destruct (initialized_tables d Hinit) as (fm & mr & ->).
  eexists. split; [reflexivity|]. unfold meal_rows; simpl.
  split; [|split].
  - symmetry. apply sql_order_by_perm.
  - intros r. rewrite sql_order_by_In. unfold sql_where.
    rewrite filter_In, TextFacts.eqb_eq. tauto.
  - apply Sorted_strongly.
    + intros a b c. apply TextFacts.leb_trans.
    + apply sql_order_by_sorted. intros a b. apply TextFacts.leb_total.
Qed.

Lemma between_same (D x : string) :
  Text.between D D x = Text.eqb x D.
Proof.
  unfold Text.between.
  destruct (Text.eqb x D) eqn:E.
  - apply TextFacts.eqb_eq in E. subst. now rewrite TextFacts.leb_refl.
  - destruct (Text.leb D x) eqn:E1, (Text.leb x D) eqn:E2; try reflexivity.
    rewrite (TextFacts.leb_antisym _ _ E2 E1) in E.
    unfold Text.eqb in E. rewrite String.eqb_refl in E. discriminate.
Qed.

Lemma insert_by_one_date (D : string) (r : Meal.t real)
    (l : list (Meal.t real)) :
  Meal.date r = D -> (forall x, In x l -> Meal.date x = D) ->
  insert_by date_created_leb r l
  = insert_by (fun a b => Text.leb (Meal.created_at a) (Meal.created_at b))
      r l.
Proof.
  intros Hr. induction l as [|y l IH]; simpl; intros Hl; [reflexivity|].
  unfold date_created_leb at 1.
  rewrite Hr, (Hl y (or_introl eq_refl)), TextFacts.ltb_irrefl.
  unfold Text.eqb at 1. rewrite String.eqb_refl. simpl.
  destruct (Text.leb (Meal.created_at r) (Meal.created_at y));
    [reflexivity|].
  f_equal. apply IH. intros x Hx. apply Hl. now right.
Qed.

Lemma sql_order_by_one_date (D : string) (l : list (Meal.t real)) :
  (forall x, In x l -> Meal.date x = D) ->
  sql_order_by date_created_leb l
  = sql_order_by (fun a b => Text.leb (Meal.created_at a) (Meal.created_at b))
      l.
Proof.
  induction l as [|r l IH]; simpl; intros Hl; [reflexivity|].
  rewrite IH by (intros x Hx; apply Hl; now right).
  apply (@insert_by_one_date D); [apply Hl; now left|].
  intros x Hx. apply sql_order_by_In in Hx. apply Hl. now right.
Qed.

(** A range query from a date to the same date returns the records the
    day view returns for that date, as often, and like the day view in
    ascending order of [created_at]: on one date the order by
    (date, created_at) is the order by created_at. *)
Theorem get_meals_by_date_is_one_day_range (d : db) (D : string) :
  initialized d = true ->
  exists by_date by_range,
    get_meals_by_date D d = (Return by_date, d) /\
    get_meals_by_date_range D D d = (Return by_range, d) /\
    Permutation by_date by_range /\
    StronglySorted
      (fun a b => Text.leb (Meal.created_at a) (Meal.created_at b) = true)
      by_range.
Proof.
  intros Hinit. destruct (initialized_tables d Hinit) as (fm & mr & ->).
  eexists. eexists. split; [reflexivity|]. split; [reflexivity|].
  cbn [rows meal_records]. unfold sql_where.
  rewrite (filter_ext _ _ (fun r => between_same D (Meal.date r))).
  rewrite (@sql_order_by_one_date D).
  - split; [reflexivity|].
    apply Sorted_strongly.
    + intros a b c. apply TextFacts.leb_trans.
    + apply sql_order_by_sorted. intros a b. apply TextFacts.leb_total.
  - intros r Hr. apply filter_In in Hr. now apply TextFacts.eqb_eq.
Qed.

End DayView.

Section Inserts.
Context {real : Type} `{Numeric real}.

Local Abbreviation db := (database real).

Lemma add_meal_record_run (fm : table (Food.t real)) (mr : table (Meal.t real))
    (now date meal_type food_name : string)
    (amount calories protein fat carbs fiber : real) :
  add_meal_record now date meal_type food_name amount calories protein fat
    carbs fiber (mk_database (Some fm) (Some mr))
  = (Return tt,
     mk_database (Some fm)
       (Some (mk_table
                (rows mr ++
                   [Meal.mk (next_rowid Meal.id mr) date meal_type food_name
                      amount calories protein fat carbs fiber now])
                (next_rowid Meal.id mr)))).
Proof. reflexivity. Qed.

(** On a file with its tables, [add_meal_record] returns, appends one
    record with the given values, the engine's timestamp and an id of
    the table's choosing, and keeps all other records; the day view of
    that date then shows the new record next to those it showed
    before. *)
Theorem add_meal_record_then_by_date (d : db)
    (now date meal_type food_name : string)
    (amount calories protein fat carbs fiber : real) :
  initialized d = true ->
  exists d1 i result,
    add_meal_record now date meal_type food_name amount calories protein fat
      carbs fiber d = (Return tt, d1) /\
    meal_rows d1 =
      meal_rows d ++
        [Meal.mk i date meal_type food_name amount calories protein fat carbs
           fiber now] /\
    get_meals_by_date date d1 = (Return result, d1) /\
    Permutation result
      (Meal.mk i date meal_type food_name amount calories protein fat carbs
         fiber now
       :: filter (fun r => Text.eqb (Meal.date r) date) (meal_rows d)).
Proof.
  intros Hinit. destruct (initialized_tables d Hinit) as (fm & mr & ->).
  eexists. exists (next_rowid Meal.id mr). eexists.
  split; [apply add_meal_record_run|]. split; [reflexivity|].
  split; [reflexivity|].
  cbn [rows meal_records meal_rows]. rewrite <- sql_order_by_perm.
  unfold sql_where. rewrite filter_app. simpl.
  unfold Text.eqb at 2. rewrite String.eqb_refl.
  rewrite Permutation_app_comm. reflexivity.
Qed.

Lemma nutrient_sum_snoc (col : Meal.t real -> real) (D : string)
    (rs : list (Meal.t real)) (r : Meal.t real) :
  nutrient_sum col D (rs ++ [r]) =
  if Text.eqb (Meal.date r) D
  then real_add (nutrient_sum col D rs) (col r)
  else nutrient_sum col D rs.
Proof.
  unfold nutrient_sum. rewrite filter_app. simpl.
  destruct (Text.eqb (Meal.date r) D).
  - now rewrite map_app, fold_left_app.
  - now rewrite app_nil_r.
Qed.

(** Adding a meal adds its five values to the totals of its date - each
    new total is the old total plus the new value - and leaves the
    daily summary of every other date as it was. *)
Theorem add_meal_record_daily_summary (d : db)
    (now date meal_type food_name : string)
    (amount calories protein fat carbs fiber : real) :
  initialized d = true ->
  exists d1 summary,
    add_meal_record now date meal_type food_name amount calories protein fat
      carbs fiber d = (Return tt, d1) /\
    get_daily_summary date d1 = (Return summary, d1) /\
    summary =
      [("calories"%string,
        as_number
          (real_add (nutrient_sum Meal.calories date (meal_rows d)) calories));
       ("protein"%string,
        as_number
          (real_add (nutrient_sum Meal.protein date (meal_rows d)) protein));
       ("fat"%string,
        as_number (real_add (nutrient_sum Meal.fat date (meal_rows d)) fat));
       ("carbs"%string,
        as_number
          (real_add (nutrient_sum Meal.carbs date (meal_rows d)) carbs));
       ("fiber"%string,
        as_number
          (real_add (nutrient_sum Meal.fiber date (meal_rows d)) fiber))] /\
    (forall D, D <> date ->
               fst (get_daily_summary D d1) = fst (get_daily_summary D d)).
Proof.
  intros Hinit. destruct (initialized_tables d Hinit) as (fm & mr & ->).
  eexists. eexists. split; [apply add_meal_record_run|].
  split; [reflexivity|].
  cbn [rows meal_records meal_rows].
  split.
  - rewrite !sql_sum_or_0, !nutrient_sum_snoc. simpl.
    unfold Text.eqb. now rewrite String.eqb_refl.
  - intros D HD. cbn. rewrite !sql_sum_or_0, !nutrient_sum_snoc. simpl.
    assert (E : Text.eqb date D = false).
    { unfold Text.eqb. apply String.eqb_neq. congruence. }
    now rewrite E.
Qed.

(** In a file the methods have built, a new meal gets an id above every
    id in the table, and above every id a deletion just removed: ids
    are not handed out twice. *)
Theorem add_meal_record_fresh_id (d : db) (record_id : Z)
    (now date meal_type food_name : string)
    (amount calories protein fat carbs fiber : real) :
  reachable d -> initialized d = true ->
  exists i,
    meal_rows
      (snd (add_meal_record now date meal_type food_name amount calories
              protein fat carbs fiber
              (snd (delete_meal_record record_id d))))
    = meal_rows (snd (delete_meal_record record_id d)) ++
        [Meal.mk i date meal_type food_name amount calories protein fat carbs
           fiber now] /\
    forall r, In r (meal_rows d) -> Meal.id r < i.
Proof.
  intros Hreach Hinit.
  destruct (reachable_consistent Hreach) as [_ Hm].
  destruct (initialized_tables d Hinit) as (fm & mr & ->).
  destruct (Hm mr eq_refl) as [_ Hbound].
  rewrite delete_meal_record_run.
  destruct (in_int64 record_id);
    (eexists; split; [reflexivity|];
     intros r Hr; cbn [meal_rows meal_records rows] in Hr;
     apply (proj1 (Forall_forall _ _) Hbound) in Hr;
     unfold next_rowid; cbn [seq sql_delete]; lia).
Qed.

(** In a file the methods have built, deleting the record an insert has
    just added gives back the records there were before the insert -
    the new id being one the engine can bind, as it is until the
    counter of the table has run through all 64-bit ids. *)
Theorem add_then_delete_meal_record (d : db)
    (now date meal_type food_name : string)
    (amount calories protein fat carbs fiber : real) :
  reachable d -> initialized d = true ->
  exists d1 i,
    add_meal_record now date meal_type food_name amount calories protein fat
      carbs fiber d = (Return tt, d1) /\
    meal_rows d1 =
      meal_rows d ++
        [Meal.mk i date meal_type food_name amount calories protein fat carbs
           fiber now] /\
    (in_int64 i = true ->
     meal_rows (snd (delete_meal_record i d1)) = meal_rows d).
Proof.
  intros Hreach Hinit.
  destruct (reachable_consistent Hreach) as [_ Hm].
  destruct (initialized_tables d Hinit) as (fm & mr & ->).
  destruct (Hm mr eq_refl) as [_ Hbound].
  eexists. exists (next_rowid Meal.id mr).
  split; [apply add_meal_record_run|]. split; [reflexivity|].
  intros Hfits. rewrite delete_meal_record_run, Hfits.
  cbn [meal_rows meal_records rows snd sql_delete].
  rewrite filter_app. simpl. rewrite Z.eqb_refl. simpl.
  rewrite app_nil_r. apply filter_all.
  intros r Hr. apply negb_true_iff, Z.eqb_neq.
  apply (proj1 (Forall_forall _ _) Hbound) in Hr.
  unfold next_rowid. lia.
Qed.

End Inserts.

(* ================================================================== *)
(** ** More of the store: edits, empty ranges, reads, missing tables *)
(* ================================================================== *)

Section Edits.
Context {real : Type} `{Numeric real}.

Local Abbreviation db := (database real).

Lemma filter_idem (A : Type) (p : A -> bool) (l : list A) :
  filter p (filter p l) = filter p l.
Proof.
  apply filter_all. intros x Hx. now apply filter_In in Hx.
Qed.

Lemma filter_comm (A : Type) (p q : A -> bool) (l : list A) :
  filter p (filter q l) = filter q (filter p l).
Proof.
  rewrite !filter_filter. apply filter_ext. intros x. apply andb_comm.
Qed.

(** Deleting is idempotent - a second delete of the same id changes
    nothing - and two deletes commute; on every file. *)
Theorem delete_meal_record_twice (d : db) (j k : Z) :
  snd (delete_meal_record k (snd (delete_meal_record k d)))
    = snd (delete_meal_record k d) /\
  snd (delete_meal_record j (snd (delete_meal_record k d)))
    = snd (delete_meal_record k (snd (delete_meal_record j d))).
Proof.
  destruct d as [fm [mr|]]; [|split; reflexivity].
  rewrite !(delete_meal_record_run fm mr).
  destruct (in_int64 k) eqn:Ek, (in_int64 j) eqn:Ej; cbn [snd];
    rewrite ?delete_meal_record_run, ?Ek, ?Ej; cbn [snd];
    unfold sql_delete; cbn [rows seq]; split;
    rewrite ?filter_idem; try reflexivity.
  now rewrite filter_comm.
Qed.

(** The last update wins: an update of a record overwrites whatever an
    earlier update of the same id wrote, so updating twice with the same
    values is updating once; on every file. *)
Theorem update_meal_record_last_wins (d : db) (record_id : Z)
    (date1 meal_type1 food_name1 date2 meal_type2 food_name2 : string)
    (amount1 calories1 protein1 fat1 carbs1 fiber1 : real)
    (amount2 calories2 protein2 fat2 carbs2 fiber2 : real) :
  snd (update_meal_record record_id date2 meal_type2 food_name2 amount2
         calories2 protein2 fat2 carbs2 fiber2
         (snd (update_meal_record record_id date1 meal_type1 food_name1
                 amount1 calories1 protein1 fat1 carbs1 fiber1 d)))
  = snd (update_meal_record record_id date2 meal_type2 food_name2 amount2
           calories2 protein2 fat2 carbs2 fiber2 d).
Proof.
  destruct d as [fm [mr|]]; [|reflexivity].
  rewrite !(update_meal_record_run fm mr).
  destruct (in_int64 record_id) eqn:Efits; cbn [snd];
    rewrite update_meal_record_run, Efits; cbn [snd]; [|reflexivity].
  unfold sql_update; cbn [rows seq]. do 2 f_equal. f_equal.
  rewrite map_map. apply map_ext. intros r.
  destruct (Meal.id r =? record_id) eqn:E; cbn; now rewrite E.
Qed.

(** After a delete, an update of the same id finds nothing to change. *)
Theorem update_after_delete (d : db) (record_id : Z)
    (date meal_type food_name : string)
    (amount calories protein fat carbs fiber : real) :
  snd (update_meal_record record_id date meal_type food_name amount calories
         protein fat carbs fiber (snd (delete_meal_record record_id d)))
  = snd (delete_meal_record record_id d).
Proof.
  destruct d as [fm [mr|]]; [|reflexivity].
  rewrite (delete_meal_record_run fm mr).
  destruct (in_int64 record_id) eqn:Efits; cbn [snd];
    rewrite update_meal_record_run, Efits; cbn [snd]; [|reflexivity].
  unfold sql_update, sql_delete; cbn [rows seq]. do 2 f_equal.
  f_equal. apply map_id_on. intros r Hr. apply filter_In in Hr.
  destruct Hr as [_ Hr]. apply negb_true_iff in Hr. now rewrite Hr.
Qed.

Lemma unique_id_filter (rs : list (Meal.t real)) (r : Meal.t real) :
  NoDup (map Meal.id rs) -> In r rs ->
  Permutation rs
    (r :: filter (fun x => negb (Meal.id x =? Meal.id r)) rs).
Proof.
  induction rs as [|x rs IH]; simpl; [tauto|].
  intros Hnd Hin. inversion Hnd as [|? ? Hfresh Hnd']; subst.
  destruct Hin as [->|Hin].
  - rewrite Z.eqb_refl. simpl. constructor.
    rewrite filter_all; [reflexivity|].
    intros y Hy. apply negb_true_iff, Z.eqb_neq. intros E.
    apply Hfresh. rewrite <- E. now apply in_map.
  - destruct (Z.eqb_spec (Meal.id x) (Meal.id r)) as [E|E]; simpl.
    + exfalso. apply Hfresh. rewrite E. now apply in_map.
    + rewrite perm_swap. constructor. now apply IH.
Qed.

(** In a file the methods have built, deleting the id of a stored record
    (an id of 64 bits, as the engine stores them) removes that one
    record and nothing else: the records before are that record plus
    the records after. *)
Theorem delete_meal_record_removes_one (d : db) (r : Meal.t real) :
  reachable d -> In r (meal_rows d) -> in_int64 (Meal.id r) = true ->
  Permutation (meal_rows d)
    (r :: meal_rows (snd (delete_meal_record (Meal.id r) d))) /\
  List.length (meal_rows (snd (delete_meal_record (Meal.id r) d)))
    = pred (List.length (meal_rows d)).
Proof.
  intros Hreach Hin Hfits.
  destruct (reachable_unique_ids Hreach) as [Hnd _].
  assert (Hperm : Permutation (meal_rows d)
            (r :: meal_rows (snd (delete_meal_record (Meal.id r) d)))).
  { destruct d as [fm [mr|]]; [|contradiction].
    rewrite delete_meal_record_run, Hfits. cbn in *.
    now apply unique_id_filter. }
  split; [exact Hperm|].
  apply Permutation_length in Hperm. simpl in Hperm. now rewrite Hperm.
Qed.

(** In a file the methods have built, an update rewrites one record at
    most: with a record of that id stored (an id of 64 bits, as the
    engine stores them), the records afterwards are the others,
    untouched, plus that record with its new values. *)
Theorem update_meal_record_rewrites_one (d : db) (r : Meal.t real)
    (date meal_type food_name : string)
    (amount calories protein fat carbs fiber : real) :
  reachable d -> In r (meal_rows d) -> in_int64 (Meal.id r) = true ->
  Permutation
    (meal_rows
       (snd (update_meal_record (Meal.id r) date meal_type food_name amount
               calories protein fat carbs fiber d)))
    (Meal.mk (Meal.id r) date meal_type food_name amount calories protein fat
       carbs fiber (Meal.created_at r)
     :: filter (fun x => negb (Meal.id x =? Meal.id r)) (meal_rows d)).
Proof.
  intros Hreach Hin Hfits.
  destruct (reachable_unique_ids Hreach) as [Hnd _].
  destruct d as [fm [mr|]]; [|contradiction].
  rewrite update_meal_record_run, Hfits. cbn in *.
  set (upd := fun x : Meal.t real =>
                if Meal.id x =? Meal.id r
                then Meal.mk (Meal.id x) date meal_type food_name amount
                       calories protein fat carbs fiber (Meal.created_at x)
                else x).
  rewrite (Permutation_map upd (unique_id_filter _ _ Hnd Hin)).
  simpl. unfold upd at 1. rewrite Z.eqb_refl. constructor.
  rewrite map_id_on; [reflexivity|].
  intros x Hx. apply filter_In in Hx. destruct Hx as [_ Hx].
  apply negb_true_iff in Hx. unfold upd. now rewrite Hx.
Qed.

End Edits.

Section Reads.
Context {real : Type} `{Numeric real}.

Local Abbreviation db := (database real).

Lemma between_inverted (startDate endDate x : string) :
  Text.ltb endDate startDate = true ->
  Text.between startDate endDate x = false.
Proof.
  intros Hlt. unfold Text.between.
  destruct (Text.leb startDate x) eqn:E1, (Text.leb x endDate) eqn:E2;
    try reflexivity.
  pose proof (TextFacts.leb_trans _ _ _ E1 E2) as Hle.
  rewrite TextFacts.ltb_negb_leb, Hle in Hlt. discriminate.
Qed.

(** A range whose end lies before its start selects nothing: on a file
    with its tables both range queries return without rows, whatever is
    stored. *)
Theorem inverted_range_is_empty (d : db) (startDate endDate : string) :
  initialized d = true ->
  Text.ltb endDate startDate = true ->
  get_meals_by_date_range startDate endDate d = (Return [], d) /\
  get_period_summary startDate endDate d = (Return [], d).
Proof.
  intros Hinit Hlt. destruct (initialized_tables d Hinit) as (fm & mr & ->).
  cbn. unfold sql_where.
  rewrite filter_none; [split; reflexivity|].
  intros r _. now apply between_inverted.
Qed.

(** The five reads never write: whatever the file, and whether the call
    returns or raises, the file handed back is the file given; and on a
    file with its tables none of them raises. *)
Theorem reads_leave_the_file (d : db) (date startDate endDate : string) :
  (snd (get_all_foods d) = d /\
   snd (get_meals_by_date date d) = d /\
   snd (get_meals_by_date_range startDate endDate d) = d /\
   snd (get_daily_summary date d) = d /\
   snd (get_period_summary startDate endDate d) = d) /\
  (initialized d = true ->
   raises (fst (get_all_foods d)) = false /\
   raises (fst (get_meals_by_date date d)) = false /\
   raises (fst (get_meals_by_date_range startDate endDate d)) = false /\
   raises (fst (get_daily_summary date d)) = false /\
   raises (fst (get_period_summary startDate endDate d)) = false).
Proof.
  destruct d as [[fm|] [mr|]]; cbn; repeat split; try reflexivity;
    intros; discriminate.
Qed.

(** Without its table a method raises and leaves the file alone.  The
    methods that run their statement on a cursor raise sqlite3's
    [OperationalError]; the three that read through pandas raise its
    [DatabaseError], made from that exception.  A missing table is
    found before the id is bound. *)
Theorem missing_table_raises (d : db) (now date meal_type food_name : string)
    (startDate endDate name : string) (record_id : Z)
    (amount calories protein fat carbs fiber : real) :
  (meal_records d = None ->
   let e := OperationalError "no such table: meal_records" in
   add_meal_record now date meal_type food_name amount calories protein fat
     carbs fiber d = (Raise e, d) /\
   update_meal_record record_id date meal_type food_name amount calories
     protein fat carbs fiber d = (Raise e, d) /\
   delete_meal_record record_id d = (Raise e, d) /\
   get_daily_summary date d = (Raise e, d) /\
   get_meals_by_date date d = (Raise (DatabaseError e), d) /\
   get_meals_by_date_range startDate endDate d
     = (Raise (DatabaseError e), d) /\
   get_period_summary startDate endDate d = (Raise (DatabaseError e), d)) /\
  (food_master d = None ->
   let e := OperationalError "no such table: food_master" in
   add_food_to_master name calories protein fat carbs fiber d = (Raise e, d) /\
   get_all_foods d = (Raise e, d)).
Proof.
  destruct d as [fm mr]; cbn. split; intros ->; repeat split.
Qed.

End Reads.

(* ================================================================== *)
(** ** The page handlers *)
(* ================================================================== *)

Section PageHandlers.
Context {real : Type} `{Numeric real}.

Local Abbreviation db := (database real).



(** The food form writes only when it is submitted with a name: an
    empty name gives the error message when submitted and never touches
    the file; an unsubmitted form does nothing; a submitted form with a
    name does what [add_food_to_master] does - on a file with its
    tables one more food with the values typed in - and reports
    success. *)
Theorem add_food_form_validates (d : db) (submitted : bool) (name : string)
    (calories protein fat carbs fiber : real) :
  add_food_form submitted "" calories protein fat carbs fiber d
    = (Return (if submitted then error None else nothing), d) /\
  add_food_form false name calories protein fat carbs fiber d
    = (Return nothing, d) /\
  (name <> ""%string -> initialized d = true ->
   exists d1 i,
     add_food_form true name calories protein fat carbs fiber d
       = (Return success, d1) /\
     d1 = snd (add_food_to_master name calories protein fat carbs fiber d) /\
     food_rows d1 =
       food_rows d ++ [Food.mk i name calories protein fat carbs fiber] /\
     meal_records d1 = meal_records d).
Proof.
  split; [now destruct submitted|]. split; [reflexivity|].
  intros Hname Hinit. destruct (initialized_tables d Hinit) as (fm & mr & ->).
  unfold add_food_form. cbn [andb].
  assert (E : Text.eqb name "" = false).
  { unfold Text.eqb. now apply String.eqb_neq. }
  rewrite E. cbn [negb]. eexists. exists (next_rowid Food.id fm).
  repeat split.
Qed.

End PageHandlers.

Section RecordPage.
Local Open Scope float_scope.

Lemma find_listed (A : Type) (p : A -> bool) (l : list A) (x : A) :
  In x l -> p x = true -> exists y, find p l = Some y.
Proof.
  intros Hin Hp. destruct (find p l) as [y|] eqn:E; [now exists y|].
  rewrite (find_none _ _ E x Hin) in Hp. discriminate.
Qed.


End RecordPage.

(* ================================================================== *)
(** ** The dates of the pages *)
(* ================================================================== *)

Section CalendarFacts.
Import Calendar.

Lemma days_in_month_bounds (y m : Z) : 28 <= days_in_month y m <= 31.
Proof.
  unfold days_in_month.
  destruct (m =? 2); [destruct (is_leap y); lia|].
  destruct ((m =? 4) || (m =? 6) || (m =? 9) || (m =? 11)); lia.
Qed.

Lemma valid_spec (d : date) :
  valid d = true <->
  1 <= year d <= 9999 /\ 1 <= month d <= 12 /\
  1 <= day d <= days_in_month (year d) (month d).
Proof.
  unfold valid. rewrite !andb_true_iff, !Z.leb_le. tauto.
Qed.

Lemma digit_compare (a b : Z) :
  Ascii.compare (digit a) (digit b) = (a mod 10 ?= b mod 10).
Proof.
  unfold Ascii.compare, digit.
  assert (Ha : 0 <= a mod 10 < 10) by (apply Z.mod_pos_bound; lia).
  assert (Hb : 0 <= b mod 10 < 10) by (apply Z.mod_pos_bound; lia).
  rewrite !N_ascii_embedding by lia.
  rewrite <- N2Z.inj_compare. rewrite !N2Z.inj_add, !Z2N.id by lia.
  apply Z.add_compare_mono_l.
Qed.

Lemma four_digits (y : Z) :
  0 <= y <= 9999 ->
  y = 1000 * ((y / 1000) mod 10) + 100 * ((y / 100) mod 10)
      + 10 * ((y / 10) mod 10) + y mod 10.
Proof. intros Hy. Z.div_mod_to_equations. lia. Qed.

Lemma two_digits (m : Z) :
  0 <= m <= 99 -> m = 10 * ((m / 10) mod 10) + m mod 10.
Proof. intros Hm. Z.div_mod_to_equations. lia. Qed.

Lemma valid_in_format (d : date) :
  valid d = true -> 1000 <= year d -> in_format d.
Proof.
  intros Hv Hy. apply valid_spec in Hv.
  pose proof (days_in_month_bounds (year d) (month d)).
  unfold in_format. lia.
Qed.

Lemma year_digits_four (y : Z) (rest : string) :
  1000 <= y ->
  year_digits y rest =
  String (digit (y / 1000))
    (String (digit (y / 100))
       (String (digit (y / 10)) (String (digit y) rest))).
Proof.
  intros Hy. unfold year_digits.
  destruct (Z.ltb_spec y 10); [lia|].
  destruct (Z.ltb_spec y 100); [lia|].
  destruct (Z.ltb_spec y 1000); [lia|reflexivity].
Qed.

(** Comparing two formatted dates is comparing year, then month, then
    day. *)
Lemma strftime_ymd_compare (a b : date) :
  in_format a -> in_format b ->
  String.compare (strftime_ymd a) (strftime_ymd b) =
  match year a ?= year b with
  | Eq => match month a ?= month b with
          | Eq => day a ?= day b
          | c => c
          end
  | c => c
  end.
Proof.
  intros (Hya & Hma & Hda) (Hyb & Hmb & Hdb).
  unfold strftime_ymd. rewrite !year_digits_four by lia.
  cbn [String.compare].
  rewrite !digit_compare.
  change (Ascii.compare "-" "-") with Eq. cbv iota.
  assert (Ea := @four_digits (year a) ltac:(lia)).
  assert (Eb := @four_digits (year b) ltac:(lia)).
  pose proof (two_digits Hma) as Ema. pose proof (two_digits Hmb) as Emb.
  pose proof (two_digits Hda) as Eda. pose proof (two_digits Hdb) as Edb.
  repeat match goal with
         | |- context [(?x / ?k) mod 10] =>
             let H := fresh "B" in
             assert (H : 0 <= (x / k) mod 10 < 10)
               by (apply Z.mod_pos_bound; lia);
             generalize dependent ((x / k) mod 10); intros
         | |- context [?x mod 10] =>
             let H := fresh "B" in
             assert (H : 0 <= x mod 10 < 10)
               by (apply Z.mod_pos_bound; lia);
             generalize dependent (x mod 10); intros
         end.
  repeat match goal with
         | |- context [?x ?= ?y] =>
             destruct (Z.compare_spec x y); try lia
         end;
    try reflexivity.
Qed.

Lemma strftime_ymd_leb (a b : date) :
  in_format a -> in_format b ->
  (Text.leb (strftime_ymd a) (strftime_ymd b) = true <-> Calendar.le a b).
Proof.
  intros Ha Hb. unfold Text.leb, String.leb.
  rewrite (strftime_ymd_compare Ha Hb). unfold Calendar.le.
  destruct (Z.compare_spec (year a) (year b));
    destruct (Z.compare_spec (month a) (month b));
    destruct (Z.compare_spec (day a) (day b));
    split; intros; try discriminate; try reflexivity; lia.
Qed.

Lemma le_antisym (a b : date) : Calendar.le a b -> Calendar.le b a -> a = b.
Proof.
  unfold Calendar.le. destruct a as [ya ma da], b as [yb mb db]. simpl.
  intros Hab Hba.
  assert (ya = yb /\ ma = mb /\ da = db) as (-> & -> & ->) by lia.
  reflexivity.
Qed.

Lemma le_refl (a : date) : Calendar.le a a.
Proof. unfold Calendar.le. lia. Qed.

Lemma le_trans (a b c : date) :
  Calendar.le a b -> Calendar.le b c -> Calendar.le a c.
Proof. unfold Calendar.le. lia. Qed.

(** For dates with a year of four digits, the bytewise order of the
    formatted dates is the order of the calendar, and different dates
    are formatted differently: a BETWEEN on the strings is a BETWEEN on
    the days. *)
Theorem strftime_ymd_chronological (a b x : date) :
  valid a = true -> valid b = true -> valid x = true ->
  1000 <= year a -> 1000 <= year b -> 1000 <= year x ->
  (Text.leb (strftime_ymd a) (strftime_ymd b) = true <-> Calendar.le a b) /\
  (strftime_ymd a = strftime_ymd b <-> a = b) /\
  (Text.between (strftime_ymd a) (strftime_ymd b) (strftime_ymd x) = true
   <-> Calendar.le a x /\ Calendar.le x b).
Proof.
  intros Va Vb Vx Ya Yb Yx.
  pose proof (valid_in_format a Va Ya) as Fa.
  pose proof (valid_in_format b Vb Yb) as Fb.
  pose proof (valid_in_format x Vx Yx) as Fx.
  split; [now apply strftime_ymd_leb|]. split.
  - split; [|now intros ->].
    intros E. apply le_antisym; apply strftime_ymd_leb; trivial;
      rewrite E; apply TextFacts.leb_refl.
  - rewrite TextFacts.between_spec.
    now rewrite (strftime_ymd_leb Fa Fx), (strftime_ymd_leb Fx Fb).
Qed.

Lemma valid_first_of_month (y m : Z) :
  1 <= y <= 9999 -> 1 <= m <= 12 -> valid (mk y m 1) = true.
Proof.
  intros Hy Hm. apply valid_spec. simpl.
  pose proof (days_in_month_bounds y m). lia.
Qed.

Lemma month_window_run (ym : date) :
  valid ym = true -> year ym < 9999 \/ month ym < 12 ->
  month_window ym =
  inr (strftime_ymd (mk (year ym) (month ym) 1),
       strftime_ymd
         (mk (year ym) (month ym) (days_in_month (year ym) (month ym)))).
Proof.
  intros Hv Hroom. apply valid_spec in Hv. destruct Hv as (Hy & Hm & Hd).
  unfold month_window, replace. cbn [year month day].
  rewrite valid_first_of_month by assumption. cbn [year month day].
  destruct (Z.eqb_spec (month ym) 12) as [E|E].
  - rewrite valid_first_of_month by lia.
    unfold yesterday. cbn [year month day].
    change (1 <? 1) with false. cbv iota.
    destruct (Z.ltb_spec 1 (year ym + 1)) as [_|]; [|lia].
    now rewrite E, Z.add_simpl_r.
  - rewrite valid_first_of_month by lia.
    unfold yesterday. cbn [year month day].
    change (1 <? 1) with false. cbv iota.
    destruct (Z.ltb_spec 1 (month ym + 1)) as [_|]; [|lia].
    now rewrite Z.add_simpl_r.
Qed.

(** The monthly view asks the store for exactly the days of the chosen
    month: its window runs from the first to the last day of that month
    (29 February in a leap year, 31 December without leaving the year),
    so a day's formatted date lies in the window if and only if the day
    is of that year and month.  Only December 9999 has no window: the
    first of the next month is out of range and [replace] raises. *)
Theorem month_window_is_the_month (ym x : date) :
  valid ym = true -> valid x = true -> 1000 <= year ym -> 1000 <= year x ->
  (year ym < 9999 \/ month ym < 12 ->
   exists startDate endDate,
     month_window ym = inr (startDate, endDate) /\
     startDate = strftime_ymd (mk (year ym) (month ym) 1) /\
     endDate =
       strftime_ymd
         (mk (year ym) (month ym) (days_in_month (year ym) (month ym))) /\
     (Text.between startDate endDate (strftime_ymd x) = true <->
      year x = year ym /\ month x = month ym)) /\
  (year ym = 9999 -> month ym = 12 -> month_window ym = inl ValueError).
Proof.
  intros Vym Vx Yym Yx. split.
  - intros Hroom. eexists. eexists.
    split; [now apply month_window_run|]. split; [reflexivity|].
    split; [reflexivity|].
    pose proof (proj1 (valid_spec ym) Vym) as (Hy & Hm & _).
    pose proof (proj1 (valid_spec x) Vx) as (Hxy & Hxm & Hxd).
    pose proof (days_in_month_bounds (year ym) (month ym)) as Hdim.
    rewrite TextFacts.between_spec.
    assert (Fx : in_format x) by now apply valid_in_format.
    assert (Fs : in_format (mk (year ym) (month ym) 1))
      by (unfold in_format; simpl; lia).
    assert (Fe : in_format
                   (mk (year ym) (month ym)
                      (days_in_month (year ym) (month ym))))
      by (unfold in_format; simpl; lia).
    rewrite (strftime_ymd_leb Fs Fx), (strftime_ymd_leb Fx Fe).
    unfold Calendar.le. simpl. split.
    + lia.
    + intros [Ey Em]. rewrite Ey, Em in Hxd. lia.
  - intros Ey Em. apply valid_spec in Vym. destruct Vym as (Hy & Hm & _).
    unfold month_window, replace. cbn [year month day].
    rewrite valid_first_of_month by assumption. cbn [year month day].
    rewrite Em, Ey. reflexivity.
Qed.

Lemma date_eq_iff (a b : date) :
  a = b <-> year a = year b /\ month a = month b /\ day a = day b.
Proof.
  split; [now intros ->|].
  destruct a, b. simpl. intros (-> & -> & ->). reflexivity.
Qed.

(** The day before a date is a date, and no date lies between the two. *)
Lemma yesterday_spec (d p : date) :
  valid d = true -> yesterday d = inr p ->
  valid p = true /\
  year d - 1 <= year p <= year d /\
  forall x, valid x = true ->
            (Calendar.le x d <-> x = d \/ Calendar.le x p).
Proof.
  intros Vd Hy. apply valid_spec in Vd. destruct Vd as (Hyr & Hmo & Hda).
  unfold yesterday in Hy.
  destruct (Z.ltb_spec 1 (day d)) as [D|D];
    [|destruct (Z.ltb_spec 1 (month d)) as [M|M];
      [|destruct (Z.ltb_spec 1 (year d)) as [Y|Y]; [|discriminate]]];
    injection Hy as <-; rewrite valid_spec; cbn [year month day].
  - split; [lia|]. split; [lia|].
    intros x _. rewrite date_eq_iff. unfold Calendar.le. simpl. lia.
  - pose proof (days_in_month_bounds (year d) (month d - 1)) as Hdim.
    split; [lia|]. split; [lia|].
    intros x Vx. apply valid_spec in Vx. destruct Vx as (_ & _ & Hxd).
    assert (Hx : year x = year d -> month x = month d - 1 ->
                 day x <= days_in_month (year d) (month d - 1)).
    { intros Ey Em. rewrite Ey, Em in Hxd. lia. }
    rewrite date_eq_iff. unfold Calendar.le. simpl. lia.
  - change (days_in_month (year d - 1) 12) with 31.
    split; [lia|]. split; [lia|].
    intros x Vx. apply valid_spec in Vx. destruct Vx as (_ & Hxm & Hxd).
    pose proof (days_in_month_bounds (year x) (month x)) as Hdim.
    rewrite date_eq_iff. unfold Calendar.le. simpl. lia.
Qed.

(** Stepping back up to a month stays in the year or in the December
    before it. *)
Lemma minus_days_back (n : nat) :
  forall (j : nat) (d : date) (Y : Z),
    (j + n <= 30)%nat -> 1 < Y -> valid d = true ->
    (year d = Y \/
     (year d = Y - 1 /\ month d = 12 /\ 32 - Z.of_nat j <= day d)) ->
    exists s,
      minus_days n d = inr s /\ valid s = true /\ Y - 1 <= year s.
Proof.
  induction n as [|n IH]; intros j d Y Hj HY Vd Hd.
  - exists d. split; [reflexivity|]. split; [assumption|]. lia.
  - cbn [minus_days].
    pose proof (proj1 (valid_spec d) Vd) as (Hyr & Hmo & Hda).
    destruct (yesterday d) as [e|p] eqn:Ey.
    + exfalso. unfold yesterday in Ey.
      destruct (Z.ltb_spec 1 (day d)); [discriminate|].
      destruct (Z.ltb_spec 1 (month d)); [discriminate|].
      destruct (Z.ltb_spec 1 (year d)); [discriminate|]. lia.
    + destruct (yesterday_spec d Vd Ey) as (Vp & _ & _).
      apply (IH (S j) p Y); [lia|assumption|assumption|].
      unfold yesterday in Ey.
      destruct (Z.ltb_spec 1 (day d)) as [D|D];
        [|destruct (Z.ltb_spec 1 (month d)) as [M|M];
          [|destruct (Z.ltb_spec 1 (year d)) as [Y1|Y1]; [|discriminate]]];
        injection Ey as <-; cbn [year month day]; lia.
Qed.

(** The days from [n] days back up to a date are the date and the [n]
    days before it. *)
Lemma minus_days_covers (n : nat) :
  forall (d s x : date),
    valid d = true -> valid x = true -> minus_days n d = inr s ->
    (Calendar.le s x /\ Calendar.le x d <->
     exists k, (k <= n)%nat /\ minus_days k d = inr x).
Proof.
  induction n as [|n IH]; intros d s x Vd Vx Hs.
  - injection Hs as <-. split.
    + intros [H1 H2]. exists O. split; [lia|].
      simpl. f_equal. now apply le_antisym.
    + intros (k & Hk & Hx). assert (k = O) by lia. subst k.
      injection Hx as <-. split; apply le_refl.
  - cbn [minus_days] in Hs.
    destruct (yesterday d) as [e|p] eqn:Ey; [discriminate|].
    destruct (yesterday_spec d Vd Ey) as (Vp & _ & Hadj).
    pose proof (IH p s x Vp Vx Hs) as IHx.
    pose proof (IH p s p Vp Vp Hs) as IHp.
    assert (Hsp : Calendar.le s p).
    { apply IHp. exists O. split; [lia|reflexivity]. }
    assert (Hpd : Calendar.le p d).
    { apply (Hadj p Vp). right. apply le_refl. }
    split.
    + intros [H1 H2]. apply (Hadj x Vx) in H2. destruct H2 as [->|H2].
      * exists O. split; [lia|reflexivity].
      * destruct (proj1 IHx (conj H1 H2)) as (k & Hk & Hx).
        exists (S k). split; [lia|]. cbn [minus_days]. now rewrite Ey.
    + intros (k & Hk & Hx). destruct k as [|k].
      * injection Hx as <-. split; [|apply le_refl].
        eapply le_trans; eassumption.
      * cbn [minus_days] in Hx. rewrite Ey in Hx.
        destruct (proj2 IHx) as [H1 H2]; [exists k; split; [lia|assumption]|].
        split; [assumption|]. eapply le_trans; eassumption.
Qed.

(** The weekly views ask the store for exactly seven days: for a day of
    the year 1001 or later the window exists, ends on that day, and a
    day's formatted date lies in it if and only if the day is that day
    or one of the six days before it. *)
Theorem week_window_is_seven_days (now x : date) :
  valid now = true -> valid x = true -> 1000 < year now -> 1000 <= year x ->
  exists startDate,
    week_window now = inr (startDate, strftime_ymd now) /\
    (Text.between startDate (strftime_ymd now) (strftime_ymd x) = true <->
     exists k, (k <= 6)%nat /\ minus_days k now = inr x).
Proof.
  intros Vn Vx Yn Yx.
  destruct (@minus_days_back 6 O now (year now)) as (s & Hs & Vs & Ys);
    [lia|lia|assumption|now left|].
  exists (strftime_ymd s). unfold week_window. rewrite Hs.
  split; [reflexivity|].
  rewrite TextFacts.between_spec.
  rewrite !strftime_ymd_leb by (apply valid_in_format; trivial; lia).
  now apply minus_days_covers.
Qed.

End CalendarFacts.

(* ================================================================== *)
(** ** Keys in the files of a session *)
(* ================================================================== *)

Section KeysOfASession.
Context {real : Type} `{Numeric real}.

(** In every file the methods can build, from no tables at all, the
    records of both tables lie in strictly ascending order of id: no two
    records of a table share an id. *)
Theorem ids_unique_and_ascending (d : database real) :
  reachable d ->
  StronglySorted Z.lt (map Meal.id (meal_rows d)) /\
  StronglySorted Z.lt (map Food.id (food_rows d)) /\
  NoDup (map Meal.id (meal_rows d)) /\
  NoDup (map Food.id (food_rows d)).
Proof.
  intros Hr. destruct (reachable_consistent Hr) as [Hf Hm].
  unfold meal_rows, food_rows.
  destruct (meal_records d) as [mr|], (food_master d) as [fm|];
    repeat split;
    try (apply (proj1 (Hm _ eq_refl))); try (apply (proj1 (Hf _ eq_refl)));
    try (apply keyed_NoDup, Hm; reflexivity);
    try (apply keyed_NoDup, Hf; reflexivity);
    constructor.
Qed.

End KeysOfASession.

(* ================================================================== *)
(** ** The further properties at work on the session *)
(* ================================================================== *)

Section MoreOnTheSession.
Local Open Scope string_scope.
Local Open Scope float_scope.

(** The session is built by the methods, from no tables at all. *)
Ltac session_built :=
  unfold Session.logged, Session.foods_only; cbv zeta;
  do 4 apply reach_add_meal; do 2 apply reach_add_food;
  apply reach_init_db; apply reach_new.

(** The day view of the 5th of the session. *)
Lemma get_meals_by_date_exact_witness :
  initialized Session.logged = true /\
  exists result,
    get_meals_by_date "2024-01-05" Session.logged
      = (Return result, Session.logged) /\
    (forall r, In r result <->
               In r (meal_rows Session.logged) /\ Meal.date r = "2024-01-05").
Proof.
  split; [reflexivity|].
  destruct (get_meals_by_date_exact Session.logged "2024-01-05" eq_refl)
    as (result & Hrun & _ & Hin & _).
  exists result. auto.
Defined.

(** The 5th of the session as a day and as a one-day range. *)
Lemma get_meals_by_date_is_one_day_range_witness :
  initialized Session.logged = true /\
  exists by_date by_range,
    get_meals_by_date "2024-01-05" Session.logged
      = (Return by_date, Session.logged) /\
    get_meals_by_date_range "2024-01-05" "2024-01-05" Session.logged
      = (Return by_range, Session.logged) /\
    Permutation by_date by_range.
Proof.
  split; [reflexivity|].
  destruct (get_meals_by_date_is_one_day_range Session.logged "2024-01-05"
              eq_refl)
    as (by_date & by_range & H1 & H2 & Hperm & _).
  exists by_date, by_range. auto.
Defined.

(** A snack added to the 5th of the session. *)
Lemma add_meal_record_then_by_date_witness :
  initialized Session.logged = true /\
  exists d1 i result,
    add_meal_record "2024-01-11 08:00:00" "2024-01-05" "snack" "Egg" 50 75.5
      6.15 5.15 0.15 0 Session.logged = (Return tt, d1) /\
    get_meals_by_date "2024-01-05" d1 = (Return result, d1) /\
    In (Meal.mk i "2024-01-05" "snack" "Egg" 50 75.5 6.15 5.15 0.15 0
          "2024-01-11 08:00:00") result.
Proof.
  split; [reflexivity|].
  destruct (add_meal_record_then_by_date Session.logged "2024-01-11 08:00:00"
              "2024-01-05" "snack" "Egg" 50 75.5 6.15 5.15 0.15 0 eq_refl)
    as (d1 & i & result & Hadd & _ & Hrun & Hperm).
  exists d1, i, result. repeat split; [exact Hadd|exact Hrun|].
  eapply Permutation_in; [symmetry; exact Hperm|]. now left.
Defined.

(** The same snack in the daily summary of the 5th. *)
Lemma add_meal_record_daily_summary_witness :
  initialized Session.logged = true /\
  exists d1 summary,
    add_meal_record "2024-01-11 08:00:00" "2024-01-05" "snack" "Egg" 50 75.5
      6.15 5.15 0.15 0 Session.logged = (Return tt, d1) /\
    get_daily_summary "2024-01-05" d1 = (Return summary, d1) /\
    fst (get_daily_summary "2024-01-10" d1)
      = fst (get_daily_summary "2024-01-10" Session.logged).
Proof.
  split; [reflexivity|].
  destruct (add_meal_record_daily_summary Session.logged "2024-01-11 08:00:00"
              "2024-01-05" "snack" "Egg" 50 75.5 6.15 5.15 0.15 0 eq_refl)
    as (d1 & summary & Hadd & Hrun & _ & Hother).
  exists d1, summary. repeat split; [exact Hadd|exact Hrun|].
  apply Hother. discriminate.
Defined.

(** Record 4 of the session deleted, then a meal added: its id is above
    4. *)
Lemma add_meal_record_fresh_id_witness :
  reachable Session.logged /\ initialized Session.logged = true /\
  exists i : Z,
    forall r, In r (meal_rows Session.logged) -> (Meal.id r < i)%Z.
Proof.
  split; [session_built|]. split; [reflexivity|].
  destruct (add_meal_record_fresh_id (d := Session.logged) 4
              "2024-01-11 08:00:00" "2024-01-05" "snack" "Egg" 50 75.5 6.15
              5.15 0.15 0 ltac:(session_built) eq_refl)
    as (i & _ & Hfresh).
  exists i. exact Hfresh.
Defined.

(** A meal added to the session and deleted again: the new id is 5. *)
Lemma add_then_delete_meal_record_witness :
  reachable Session.logged /\ initialized Session.logged = true /\
  exists d1 i,
    add_meal_record "2024-01-11 08:00:00" "2024-01-05" "snack" "Egg" 50 75.5
      6.15 5.15 0.15 0 Session.logged = (Return tt, d1) /\
    in_int64 i = true /\
    meal_rows (snd (delete_meal_record i d1)) = meal_rows Session.logged.
Proof.
  split; [session_built|]. split; [reflexivity|].
  destruct (add_then_delete_meal_record (d := Session.logged)
              "2024-01-11 08:00:00" "2024-01-05" "snack" "Egg" 50 75.5 6.15
              5.15 0.15 0 ltac:(session_built) eq_refl)
    as (d1 & i & Hadd & Hrows & Hback).
  assert (Hi : i = 5%Z).
  { pose proof Hadd as Hd1. vm_compute in Hd1. injection Hd1 as Hd1.
    rewrite <- Hd1 in Hrows. vm_compute in Hrows. congruence. }
  exists d1, i. split; [exact Hadd|].
  assert (Hfits : in_int64 i = true) by (rewrite Hi; reflexivity).
  split; [exact Hfits|]. exact (Hback Hfits).
Defined.

(** Deleting record 2 of the session leaves three records. *)
Lemma delete_meal_record_removes_one_witness :
  reachable Session.logged /\
  In Session.egg_of_the_1st (meal_rows Session.logged) /\
  in_int64 (Meal.id Session.egg_of_the_1st) = true /\
  List.length (meal_rows (snd (delete_meal_record 2 Session.logged))) = 3%nat.
Proof.
  split; [session_built|].
  split; [right; left; reflexivity|]. split; [reflexivity|].
  destruct (delete_meal_record_removes_one (d := Session.logged)
              Session.egg_of_the_1st ltac:(session_built)
              ltac:(right; left; reflexivity) eq_refl)
    as [_ Hlen].
  exact Hlen.
Defined.

(** Updating record 2 of the session rewrites that record only. *)
Lemma update_meal_record_rewrites_one_witness :
  reachable Session.logged /\
  In Session.egg_of_the_1st (meal_rows Session.logged) /\
  in_int64 (Meal.id Session.egg_of_the_1st) = true /\
  Permutation
    (meal_rows
       (snd (update_meal_record 2 "2024-01-02" "lunch" "Egg" 50 75.5 6.15
               5.15 0.15 0 Session.logged)))
    (Meal.mk 2 "2024-01-02" "lunch" "Egg" 50 75.5 6.15 5.15 0.15 0
       "2024-01-05 19:30:00"
     :: filter (fun x => negb (Meal.id x =? 2)%Z) (meal_rows Session.logged)).
Proof.
  split; [session_built|].
  split; [right; left; reflexivity|]. split; [reflexivity|].
  apply (update_meal_record_rewrites_one (d := Session.logged)
           Session.egg_of_the_1st "2024-01-02" "lunch" "Egg" 50 75.5 6.15
           5.15 0.15 0 ltac:(session_built));
    [right; left; reflexivity|reflexivity].
Defined.

(** The session asked for 8 January down to 2 January. *)
Lemma inverted_range_is_empty_witness :
  initialized Session.logged = true /\
  Text.ltb "2024-01-02" "2024-01-08" = true /\
  get_meals_by_date_range "2024-01-08" "2024-01-02" Session.logged
    = (Return [], Session.logged) /\
  get_period_summary "2024-01-08" "2024-01-02" Session.logged
    = (Return [], Session.logged).
Proof.
  split; [reflexivity|]. split; [reflexivity|].
  apply (inverted_range_is_empty Session.logged "2024-01-08" "2024-01-02");
    reflexivity.
Defined.


(** The session's ids. *)
Lemma ids_unique_and_ascending_witness :
  reachable Session.logged /\
  NoDup (map Meal.id (meal_rows Session.logged)).
Proof.
  split; [session_built|].
  apply (ids_unique_and_ascending (d := Session.logged)
           ltac:(session_built)).
Defined.

(** 29 February 2024 lies between 31 January and 1 March. *)
Lemma strftime_ymd_chronological_witness :
  Calendar.valid (Calendar.mk 2024 1 31) = true /\
  Calendar.valid (Calendar.mk 2024 3 1) = true /\
  Calendar.valid (Calendar.mk 2024 2 29) = true /\
  (Text.between (Calendar.strftime_ymd (Calendar.mk 2024 1 31))
     (Calendar.strftime_ymd (Calendar.mk 2024 3 1))
     (Calendar.strftime_ymd (Calendar.mk 2024 2 29)) = true <->
   Calendar.le (Calendar.mk 2024 1 31) (Calendar.mk 2024 2 29) /\
   Calendar.le (Calendar.mk 2024 2 29) (Calendar.mk 2024 3 1)).
Proof.
  split; [reflexivity|]. split; [reflexivity|]. split; [reflexivity|].
  apply (strftime_ymd_chronological (Calendar.mk 2024 1 31)
           (Calendar.mk 2024 3 1) (Calendar.mk 2024 2 29));
    first [reflexivity | simpl; lia].
Defined.

(** February 2024, chosen by its 15th; the 29th is in the window. *)
Lemma month_window_is_the_month_witness :
  Calendar.valid (Calendar.mk 2024 2 15) = true /\
  Calendar.valid (Calendar.mk 2024 2 29) = true /\
  exists startDate endDate,
    Calendar.month_window (Calendar.mk 2024 2 15) = inr (startDate, endDate) /\
    startDate = "2024-02-01" /\ endDate = "2024-02-29" /\
    Text.between startDate endDate
      (Calendar.strftime_ymd (Calendar.mk 2024 2 29)) = true.
Proof.
  split; [reflexivity|]. split; [reflexivity|].
  destruct (month_window_is_the_month (Calendar.mk 2024 2 15)
              (Calendar.mk 2024 2 29) eq_refl eq_refl
              ltac:(simpl; lia) ltac:(simpl; lia))
    as [Hwin _].
  destruct Hwin as (startDate & endDate & Hrun & Hs & He & Hin);
    [left; simpl; lia|].
  exists startDate, endDate.
  split; [exact Hrun|]. split; [exact Hs|]. split; [exact He|].
  apply Hin. split; reflexivity.
Defined.

(** The week ending on 3 March 2024 reaches back over the leap day to
    26 February. *)
Lemma week_window_is_seven_days_witness :
  Calendar.valid (Calendar.mk 2024 3 3) = true /\
  Calendar.valid (Calendar.mk 2024 2 26) = true /\
  exists startDate,
    Calendar.week_window (Calendar.mk 2024 3 3)
      = inr (startDate, "2024-03-03") /\
    Text.between startDate "2024-03-03"
      (Calendar.strftime_ymd (Calendar.mk 2024 2 26)) = true.
Proof.
  split; [reflexivity|]. split; [reflexivity|].
  destruct (week_window_is_seven_days (Calendar.mk 2024 3 3)
              (Calendar.mk 2024 2 26) eq_refl eq_refl
              ltac:(simpl; lia) ltac:(simpl; lia))
    as (startDate & Hrun & Hin).
  exists startDate. split; [exact Hrun|].
  apply Hin. exists 6%nat. split; [lia|reflexivity].
Defined.

(** Before the year 1000 the format has fewer digits and the order of
    the strings is no longer the order of the days. *)
Example strftime_ymd_three_digit_year :
  Calendar.strftime_ymd (Calendar.mk 999 12 31) = "999-12-31" /\
  Text.leb (Calendar.strftime_ymd (Calendar.mk 999 12 31))
    (Calendar.strftime_ymd (Calendar.mk 1000 1 1)) = false.
Proof. split; reflexivity. Qed.

End MoreOnTheSession.
